(** * ingress-monitor-controller: the monitor synchronization engine

    A shallow embedding of the Go packages [pkg/ingress], [pkg/monitor],
    [pkg/models], [pkg/provider] and the builder of [pkg/provider/site24x7],
    followed by the properties of validation, URL derivation, configuration
    resolution, the create/update/delete decision logic and the source-range
    merge.

    Conventions of the embedding.
    - A Go [string] is a [string] (a sequence of bytes); a [map[string]string]
      is a [gmap string string]; a slice is a [list], except where the code
      tests a slice against [nil], where it is an [option (list _)] with
      [None] for the nil slice.
    - A Go function returning [(T, error)] (or just [error]) returns a
      [result T] (or [result unit]): [Ok] for a nil error, [Err] for a
      non-nil one, and [Panic] for a run-time panic (index out of range, nil
      dereference).
    - Provider calls thread the provider's state and append to a log of
      calls, the way [mock.Mock] records [Calls] in the tests.
    - Logging and metric counters are write-only and are left out. *)

From stdpp Require Import gmap strings list.
From Stdlib Require Import ZArith Ascii String.

Local Open Scope string_scope.
Local Open Scope list_scope.
Local Open Scope Z_scope.

(** ** Errors *)

(** The kinds of profile or group a finalizer can discover. *)
Inductive ProfileKind :=
| LocationProfileKind
| NotificationProfileKind
| ThresholdProfileKind
| MonitorGroupKind
| UserGroupKind.

#[global] Instance ProfileKind_eq_dec : EqDecision ProfileKind :=
  ltac:(solve_decision).

(** Go error values.  Errors are compared by identity in the source
    ([err == models.ErrMonitorNotFound]), so the sentinel is a constructor
    of its own and an error made elsewhere is never equal to it, whatever its
    message.  Errors built with a format string carry the arguments of the
    format. *)
Inductive error :=
| ErrMonitorNotFound
    (* models.ErrMonitorNotFound = errors.New("monitor not found") *)
| ErrTLSHostWildcard (host : string)
    (* errors.Errorf("ingress TLS host %q contains wildcards", host) *)
| ErrNoRules
    (* errors.New("ingress does not have any rules") *)
| ErrHostWildcard (host : string)
    (* errors.Errorf("ingress host %q contains wildcards", host) *)
| ErrInvalidAnnotationJSON (key raw cause : string)
    (* "invalid json in annotation %q: %s: <cause>" *)
| ErrNoProfilesConfigured (kind : ProfileKind)
    (* "no location profiles configured" and its four siblings *)
| ErrExternal (msg : string).
    (* an error value made outside these packages: net/url, text/template,
       the provider backend *)

Definition isErrMonitorNotFound (e : error) : bool :=
  match e with ErrMonitorNotFound => true | _ => false end.

Inductive result (A : Type) :=
| Ok (a : A)
| Err (e : error)
| Panic.
Arguments Ok {A} a.
Arguments Err {A} e.
Arguments Panic {A}.

#[global] Instance result_ret : MRet result := @Ok.
#[global] Instance result_bind : MBind result := λ A B f r,
  match r with Ok a => f a | Err e => Err e | Panic => Panic end.
#[global] Instance result_fmap : FMap result := λ A B f r,
  match r with Ok a => Ok (f a) | Err e => Err e | Panic => Panic end.

(** [l[i]]: indexing a slice panics when [i] is out of range. *)
Definition index {A : Type} (l : list A) (i : nat) : result A :=
  match l !! i with Some x => Ok x | None => Panic end.

(** ** Package strings (the functions the source calls) *)
Module Strings.

(** [strings.Contains(s, substr)]. *)
Fixpoint Contains (s substr : string) : bool :=
  String.prefix substr s ||
  match s with
  | EmptyString => false
  | String _ s' => Contains s' substr
  end.

(** [strings.Split(s, sep)] for a separator of one byte, the only use in
    the source ([","]).  The empty string splits into one empty field. *)
Fixpoint Split (s : string) (sep : ascii) : list string :=
  match s with
  | EmptyString => [EmptyString]
  | String c s' =>
      if Ascii.eqb c sep then EmptyString :: Split s' sep
      else match Split s' sep with
           | field :: fields => String c field :: fields
           | [] => [String c EmptyString]
           end
  end.

(** [strings.Join(elems, sep)]. *)
Fixpoint Join (elems : list string) (sep : string) : string :=
  match elems with
  | [] => EmptyString
  | [e] => e
  | e :: rest => e +:+ sep +:+ Join rest sep
  end.

End Strings.

(** ** Package strconv *)
Module strconv.

(** [strconv.ParseBool]: the twelve accepted spellings. *)
Definition ParseBool (str : string) : option bool :=
  if bool_decide (str ∈ ["1"; "t"; "T"; "TRUE"; "true"; "True"]) then Some true
  else if bool_decide (str ∈ ["0"; "f"; "F"; "FALSE"; "false"; "False"]) then Some false
  else None.

Definition digit (c : ascii) : option Z :=
  let n := Z.of_N (N_of_ascii c) in
  if (48 <=? n) && (n <=? 57) then Some (n - 48) else None.

Fixpoint digits (s : string) (acc : Z) : option Z :=
  match s with
  | EmptyString => Some acc
  | String c s' => d ← digit c; digits s' (10 * acc + d)
  end.

(** [strconv.Atoi] on a 64-bit platform: an optional sign, at least one
    decimal digit, and a value that fits an [int]. *)
Definition Atoi (s : string) : option Z :=
  let '(neg, body) :=
    match s with
    | String "-" s' => (true, s')
    | String "+" s' => (false, s')
    | _ => (false, s)
    end in
  match body with
  | EmptyString => None
  | _ =>
      n ← digits body 0;
      let v := if neg then - n else n in
      if (- 2 ^ 63 <=? v) && (v <? 2 ^ 63) then Some v else None
  end.

End strconv.

(** ** Package site24x7api (github.com/Bonial-International-GmbH/site24x7-go)

    The types of the client library that the builder fills or reads: the
    fields of a monitor that [FromModel] assigns, and of each listed profile
    or group its identifier. *)
Module site24x7api.

Record Header := { HeaderName : string; HeaderValue : string }.
Record ActionRef := { ActionID : string; AlertType : Z }.

(** [MonitorType] is the field [Type]. *)
Record Monitor := {
  MonitorID : string;
  DisplayName : string;
  MonitorType : string;
  Website : string;
  CheckFrequency : string;
  HTTPMethod : string;
  AuthUser : string;
  AuthPass : string;
  MatchCase : bool;
  UserAgent : string;
  CustomHeaders : option (list Header);
  Timeout : Z;
  LocationProfileID : string;
  NotificationProfileID : string;
  ThresholdProfileID : string;
  MonitorGroups : list string;
  UserGroupIDs : list string;
  ActionIDs : option (list ActionRef);
  UseNameServer : bool
}.

Record LocationProfile := { LocationProfile_ProfileID : string }.
Record NotificationProfile := { NotificationProfile_ProfileID : string }.
Record ThresholdProfile := { ThresholdProfile_ProfileID : string }.
Record MonitorGroup := { GroupID : string }.
Record UserGroup := { UserGroupID : string }.

End site24x7api.

(** ** Package config: annotation keys, accessors, options, defaults *)
Module config.

Abbreviation Annotations := (gmap string string).

(** The operator's annotation keys, as the README lists them. *)
Definition AnnotationPrefix := "ingress-monitor.bonial.com".
Definition AnnotationEnabled := AnnotationPrefix +:+ "/enabled".
Definition AnnotationForceHTTPS := AnnotationPrefix +:+ "/force-https".
Definition AnnotationPathOverride := AnnotationPrefix +:+ "/path-override".

(** Modelled from the spec: the provider-specific annotation keys
    ([pkg/config/annotations.go] is not among the sources).  "A full family
    of provider-specific annotations, one per configurable monitor field";
    the tests show the key of the actions field, the others are named after
    their field in the same way.  No property below depends on the
    spelling of a key. *)
Definition Site24x7AnnotationPrefix := "site24x7.ingress-monitor.bonial.com".
Definition AnnotationSite24x7Actions := Site24x7AnnotationPrefix +:+ "/actions".
Definition AnnotationSite24x7AuthPass := Site24x7AnnotationPrefix +:+ "/auth-pass".
Definition AnnotationSite24x7AuthUser := Site24x7AnnotationPrefix +:+ "/auth-user".
Definition AnnotationSite24x7CheckFrequency := Site24x7AnnotationPrefix +:+ "/check-frequency".
Definition AnnotationSite24x7CustomHeaders := Site24x7AnnotationPrefix +:+ "/custom-headers".
Definition AnnotationSite24x7HTTPMethod := Site24x7AnnotationPrefix +:+ "/http-method".
Definition AnnotationSite24x7LocationProfileID := Site24x7AnnotationPrefix +:+ "/location-profile-id".
Definition AnnotationSite24x7MatchCase := Site24x7AnnotationPrefix +:+ "/match-case".
Definition AnnotationSite24x7MonitorGroupIDs := Site24x7AnnotationPrefix +:+ "/monitor-group-ids".
Definition AnnotationSite24x7NotificationProfileID := Site24x7AnnotationPrefix +:+ "/notification-profile-id".
Definition AnnotationSite24x7ThresholdProfileID := Site24x7AnnotationPrefix +:+ "/threshold-profile-id".
Definition AnnotationSite24x7Timeout := Site24x7AnnotationPrefix +:+ "/timeout".
Definition AnnotationSite24x7UseNameServer := Site24x7AnnotationPrefix +:+ "/use-name-server".
Definition AnnotationSite24x7UserAgent := Site24x7AnnotationPrefix +:+ "/user-agent".
Definition AnnotationSite24x7UserGroupIDs := Site24x7AnnotationPrefix +:+ "/user-group-ids".

(** Modelled from the spec: the typed accessors of [config.Annotations]
    ([pkg/config/annotations.go] is not among the sources).  "Typed
    accessors interpret values as string, bool, int, string-list, or
    JSON-decoded structures, falling back to a supplied default when absent
    or unparsable-as-absent."  The default is the optional trailing
    argument of the Go methods ([BoolValue(key)] is called without one in
    [pkg/ingress] and [pkg/monitor]); without a default the zero value is
    used. *)
Definition StringValue (a : Annotations) (name : string) (default : string) : string :=
  match a !! name with
  | Some value => value
  | None => default
  end.

Definition BoolValue (a : Annotations) (name : string) (default : bool) : bool :=
  match a !! name with
  | Some value =>
      match strconv.ParseBool value with
      | Some b => b
      | None => default
      end
  | None => default
  end.

Definition IntValue (a : Annotations) (name : string) (default : Z) : Z :=
  match a !! name with
  | Some value =>
      match strconv.Atoi value with
      | Some i => i
      | None => default
      end
  | None => default
  end.

Definition StringSliceValue (a : Annotations) (name : string) (default : list string)
  : list string :=
  match a !! name with
  | Some value => Strings.Split value ","
  | None => default
  end.

(** Modelled from the spec: [ParseJSON(name, &obj)].  "A
    present-but-malformed JSON value is a hard error
    (InvalidAnnotationJSON(key, rawValue, cause)); an absent annotation"
    leaves [obj] as it is.  [unmarshal] is [json.Unmarshal] at the type of
    [obj]: the decoded value, or the decoder's message. *)
Definition ParseJSON {T : Type} (a : Annotations) (name : string)
    (unmarshal : string → string + T) (obj : T) : result T :=
  match a !! name with
  | None => Ok obj
  | Some value =>
      match unmarshal value with
      | inl cause => Err (ErrInvalidAnnotationJSON name value cause)
      | inr decoded => Ok decoded
      end
  end.

(** [config.Options]: the field the service reads. *)
Record Options := { NoDelete : bool }.

(** [Site24x7MonitorDefaults]: the monitor defaults that are used for each
    monitor if not overridden explicitly via ingress annotations. *)
Record Site24x7MonitorDefaults := {
  Actions : option (list site24x7api.ActionRef);
  AuthPass : string;
  AuthUser : string;
  AutoLocationProfile : bool;
  AutoNotificationProfile : bool;
  AutoThresholdProfile : bool;
  AutoMonitorGroup : bool;
  AutoUserGroup : bool;
  CheckFrequency : string;
  CustomHeaders : option (list site24x7api.Header);
  HTTPMethod : string;
  LocationProfileID : string;
  MatchCase : bool;
  MonitorGroupIDs : list string;
  NotificationProfileID : string;
  ThresholdProfileID : string;
  Timeout : Z;
  UseNameServer : bool;
  UserAgent : string;
  UserGroupIDs : list string
}.

End config.

(** ** Package networkingv1: the part of an ingress the controller reads *)
Module networkingv1.

Record IngressTLS := { Hosts : list string }.
Record IngressRule := { Host : string }.
Record IngressSpec := { TLS : list IngressTLS; Rules : list IngressRule }.

Record Ingress := {
  Name : string;
  Namespace : string;
  Annotations : config.Annotations;
  Spec : IngressSpec
}.

End networkingv1.

(** ** Package net/url, as far as [BuildMonitorURL] uses it

    The Go standard library is not part of the repository: the parser and
    the printer are an interface, and the properties of the URL builder hold
    for every implementation of it. *)
Module url.

Class Library := {
  URL : Type;
  (** [url.Parse(rawURL)] *)
  Parse : string → result URL;
  (** the assignment [u.Path = path] *)
  withPath : URL → string → URL;
  (** the method [String()] of a URL *)
  String : URL → string
}.

End url.

(** ** Package ingress: validation and URL derivation *)
Module ingress.
Import networkingv1.

Definition nginxForceSSLRedirectAnnotation :=
  "nginx.ingress.kubernetes.io/force-ssl-redirect".

(** The short-circuit conjunction guards every index expression: a later
    conjunct is evaluated only where the earlier ones hold. *)
Definition supportsTLS (ingress : Ingress) : bool :=
  match ingress.(Spec).(TLS) with
  | [] => false
  | tls0 :: _ =>
      match tls0.(Hosts) with
      | [] => false
      | host0 :: _ => bool_decide (0 < String.length host0)%nat
      end
  end.

Definition forceHTTPS (ingress : Ingress) : bool :=
  let annotations := ingress.(Annotations) in
  config.BoolValue annotations config.AnnotationForceHTTPS false
  || config.BoolValue annotations nginxForceSSLRedirectAnnotation false.

Definition containsWildcard (hostName : string) : bool :=
  Strings.Contains hostName "*".

(** The index expressions [ingress.Spec.TLS[0].Hosts[0]] and
    [ingress.Spec.Rules[0].Host]. *)
Definition tlsHost0 (ingress : Ingress) : result string :=
  tls0 ← index ingress.(Spec).(TLS) 0; index tls0.(Hosts) 0.

Definition ruleHost0 (ingress : Ingress) : result string :=
  rule0 ← index ingress.(Spec).(Rules) 0; Ok rule0.(Host).

Definition Validate (ingress : Ingress) : result unit :=
  tlsWildcard ←
    (if supportsTLS ingress then containsWildcard <$> tlsHost0 ingress
     else Ok false);
  if tlsWildcard : bool then
    host ← tlsHost0 ingress; Err (ErrTLSHostWildcard host)
  else if bool_decide (List.length ingress.(Spec).(Rules) = 0%nat) then
    Err ErrNoRules
  else
    host ← ruleHost0 ingress;
    if containsWildcard host then
      host' ← ruleHost0 ingress; Err (ErrHostWildcard host')
    else Ok ().

Definition buildHostURL (ingress : Ingress) : result string :=
  if supportsTLS ingress then
    host ← tlsHost0 ingress; Ok ("https://" +:+ host)
  else if forceHTTPS ingress then
    host ← ruleHost0 ingress; Ok ("https://" +:+ host)
  else
    host ← ruleHost0 ingress; Ok ("http://" +:+ host).

Definition BuildMonitorURL `{url.Library} (ingress : Ingress) : result string :=
  host ← buildHostURL ingress;
  u ← url.Parse host;
  let u :=
    match ingress.(Annotations) !! config.AnnotationPathOverride with
    | Some path => url.withPath u path
    | None => u
    end in
  Ok (url.String u).

End ingress.

(** ** Package models *)
Module models.

Record Monitor := {
  ID : string;
  Name : string;
  URL : string;
  Annotations : config.Annotations
}.

Definition withID (m : Monitor) (id : string) : Monitor :=
  {| ID := id; Name := m.(Name); URL := m.(URL); Annotations := m.(Annotations) |}.

End models.

(** ** Package provider: the interface

    A provider is a state of type [P] with the five operations; each returns
    what the Go method returns together with the provider's next state.  A
    nil [*models.Monitor] or a nil [error] is [None]. *)
Module provider.

Class Interface (P : Type) := {
  Create : models.Monitor → P → option error * P;
  Get : string → P → (option models.Monitor * option error) * P;
  Update : models.Monitor → P → option error * P;
  Delete : string → P → option error * P;
  GetIPSourceRanges : models.Monitor → P → (list string * option error) * P
}.

(** One entry of the call log. *)
Inductive Call :=
| CallCreate (model : models.Monitor)
| CallGet (name : string)
| CallUpdate (model : models.Monitor)
| CallDelete (name : string)
| CallGetIPSourceRanges (model : models.Monitor).

End provider.

(** The null provider of [pkg/provider/null]: no state, nothing is ever
    found, and checks come from the local host. *)
Module null.

#[global] Instance Provider : provider.Interface unit := {|
  provider.Create := λ _ p, (None, p);
  provider.Get := λ _ p, ((None, Some ErrMonitorNotFound), p);
  provider.Update := λ _ p, (None, p);
  provider.Delete := λ _ p, (None, p);
  provider.GetIPSourceRanges := λ _ p, ((["127.0.0.1/32"], None), p)
|}.

End null.

(** The fake provider of [pkg/provider/fake]: every method answers what the
    test set up with [On(...).Return(...)], here one answer per method. *)
Module fake.

Record Provider := {
  onCreate : models.Monitor → option error;
  onGet : string → option models.Monitor * option error;
  onUpdate : models.Monitor → option error;
  onDelete : string → option error;
  onGetIPSourceRanges : models.Monitor → list string * option error
}.

#[global] Instance Interface : provider.Interface Provider := {|
  provider.Create := λ model p, (p.(onCreate) model, p);
  provider.Get := λ name p, (p.(onGet) name, p);
  provider.Update := λ model p, (p.(onUpdate) model, p);
  provider.Delete := λ name p, (p.(onDelete) name, p);
  provider.GetIPSourceRanges := λ model p, (p.(onGetIPSourceRanges) model, p)
|}.

End fake.

(** ** Package monitor: the service *)
Module monitor.
Import networkingv1.

(** Modelled from the spec: the namer ([NewNamer] and [Namer.Name] are not
    among the sources).  The monitor name is "derived deterministically
    from the owning resource's namespace and name via a configurable
    template"; "it depends only on namespace/name metadata".  [render] is
    the executed template, a function of the namespace and the ingress
    name, which may fail as executing a template may. *)
Record Namer := { render : string → string → result string }.

Definition Namer_Name (n : Namer) (ingress : Ingress) : result string :=
  n.(render) ingress.(Namespace) ingress.(Name).

(** Modelled from the spec: the namer of the default name template
    [{{.Namespace}}-{{.IngressName}}] given in the README and used by the
    tests. *)
Definition defaultNamer : Namer :=
  {| render := λ namespace ingressName, Ok (namespace +:+ "-" +:+ ingressName) |}.

Definition nginxWhitelistSourceRangeAnnotation :=
  "nginx.ingress.kubernetes.io/whitelist-source-range".

(** [difference] returns the elements that are in [a] but not in [b]:
    the first loop fills the set [seen] from [b], the second appends to
    [diff] the elements of [a] that are not in [seen]. *)
Definition difference (a b : list string) : list string :=
  let seen : gset string := foldl (λ seen el, {[el]} ∪ seen) ∅ b in
  foldl (λ diff el, if decide (el ∈ seen) then diff else (diff ++ [el])%list) [] a.

Definition mergeProviderSourceRanges (sourceRanges providerSourceRanges : list string)
  : list string * bool :=
  let missingSourceRanges := difference providerSourceRanges sourceRanges in
  if bool_decide (List.length missingSourceRanges = 0%nat) then (sourceRanges, false)
  else ((sourceRanges ++ missingSourceRanges)%list, true).

(** [m[key]] on a Go map: the zero value when the key is absent. *)
Definition mapIndex (m : config.Annotations) (key : string) : string :=
  default EmptyString (m !! key).

Definition shouldPatchSourceRangeWhitelist (ingress : Ingress) : bool :=
  let annotations := ingress.(Annotations) in
  if negb (config.BoolValue annotations config.AnnotationEnabled false) then false
  else bool_decide (0 < String.length (mapIndex ingress.(Annotations)
                                        nginxWhitelistSourceRangeAnnotation))%nat.

(** The assignment [ingress.Annotations[key] = value]. *)
Definition setAnnotation (ingress : Ingress) (key value : string) : Ingress :=
  {| Name := ingress.(Name);
     Namespace := ingress.(Namespace);
     Annotations := <[key := value]> ingress.(Annotations);
     Spec := ingress.(Spec) |}.

Record service := {
  namer : Namer;
  options : config.Options
}.

Section Service.
Context `{url.Library} {P : Type} `{provider.Interface P}.

(** The [provider] field of the service together with the log of the
    calls made to it. *)
Definition World : Type := P * list provider.Call.

Definition M (A : Type) : Type := World → A * World.

Definition ret {A} (a : A) : M A := λ w, (a, w).
Definition bind {A B} (m : M A) (f : A → M B) : M B :=
  λ w, let '(a, w') := m w in f a w'.

Definition providerCreate (model : models.Monitor) : M (option error) :=
  λ '(p, log), let '(r, p') := provider.Create model p in
               (r, (p', (log ++ [provider.CallCreate model])%list)).
Definition providerGet (name : string) : M (option models.Monitor * option error) :=
  λ '(p, log), let '(r, p') := provider.Get name p in
               (r, (p', (log ++ [provider.CallGet name])%list)).
Definition providerUpdate (model : models.Monitor) : M (option error) :=
  λ '(p, log), let '(r, p') := provider.Update model p in
               (r, (p', (log ++ [provider.CallUpdate model])%list)).
Definition providerDelete (name : string) : M (option error) :=
  λ '(p, log), let '(r, p') := provider.Delete name p in
               (r, (p', (log ++ [provider.CallDelete name])%list)).
Definition providerGetIPSourceRanges (model : models.Monitor)
  : M (list string * option error) :=
  λ '(p, log), let '(r, p') := provider.GetIPSourceRanges model p in
               (r, (p', (log ++ [provider.CallGetIPSourceRanges model])%list)).

(** [if err != nil { return err }; ...; return nil] *)
Definition errorResult (err : option error) : result unit :=
  match err with Some e => Err e | None => Ok () end.

Definition buildMonitorModel (s : service) (ing : Ingress) : result models.Monitor :=
  name ← Namer_Name s.(namer) ing;
  url ← ingress.BuildMonitorURL ing;
  Ok {| models.ID := EmptyString;
        models.URL := url;
        models.Name := name;
        models.Annotations := ing.(Annotations) |}.

Definition createMonitor (s : service) (monitor : models.Monitor) : M (result unit) :=
  bind (providerCreate monitor) (λ err, ret (errorResult err)).

(** [oldMonitor] is the pointer [Get] returned; reading [oldMonitor.ID]
    through a nil pointer panics. *)
Definition updateMonitor (s : service) (oldMonitor : option models.Monitor)
    (newMonitor : models.Monitor) : M (result unit) :=
  match oldMonitor with
  | None => ret Panic
  | Some oldMonitor =>
      let newMonitor := models.withID newMonitor oldMonitor.(models.ID) in
      bind (providerUpdate newMonitor) (λ err, ret (errorResult err))
  end.

Definition deleteMonitor (s : service) (name : string) : M (result unit) :=
  bind (providerDelete name) (λ err,
    match err with
    | Some ErrMonitorNotFound => ret (Ok ())
    | Some e => ret (Err e)
    | None => ret (Ok ())
    end).

Definition EnsureMonitor (s : service) (ing : Ingress) : M (result unit) :=
  match ingress.Validate ing with
  | Err _ => ret (Ok ())
  | Panic => ret Panic
  | Ok _ =>
      match buildMonitorModel s ing with
      | Err e => ret (Err e)
      | Panic => ret Panic
      | Ok newMonitor =>
          bind (providerGet newMonitor.(models.Name)) (λ '(oldMonitor, err),
            match err with
            | Some ErrMonitorNotFound => createMonitor s newMonitor
            | Some e => ret (Err e)
            | None => updateMonitor s oldMonitor newMonitor
            end)
      end
  end.

Definition DeleteMonitor (s : service) (ingress : Ingress) : M (result unit) :=
  match Namer_Name s.(namer) ingress with
  | Err e => ret (Err e)
  | Panic => ret Panic
  | Ok name =>
      if s.(options).(config.NoDelete) then ret (Ok ())
      else deleteMonitor s name
  end.

(** The slice the provider returns next to a non-nil error is dropped:
    the caller in this package does not read it. *)
Definition GetProviderIPSourceRanges (s : service) (ing : Ingress)
  : M (result (list string)) :=
  match ingress.Validate ing with
  | Err _ => ret (Ok [])
  | Panic => ret Panic
  | Ok _ =>
      match buildMonitorModel s ing with
      | Err e => ret (Err e)
      | Panic => ret Panic
      | Ok monitor =>
          bind (providerGetIPSourceRanges monitor) (λ '(ranges, err),
            match err with
            | Some e => ret (Err e)
            | None => ret (Ok ranges)
            end)
      end
  end.

(** [AnnotateIngress] writes through the ingress pointer: the ingress
    after the call is returned next to the Go return values.  The write
    is to a map that holds the enabled annotation, so it is not a write
    to a nil map. *)
Definition AnnotateIngress (s : service) (ingress : Ingress)
  : M (Ingress * result bool) :=
  if negb (shouldPatchSourceRangeWhitelist ingress) then ret (ingress, Ok false)
  else
    bind (GetProviderIPSourceRanges s ingress) (λ r,
      match r with
      | Err e => ret (ingress, Err e)
      | Panic => ret (ingress, Panic)
      | Ok providerSourceRanges =>
          if bool_decide (List.length providerSourceRanges = 0%nat) then
            ret (ingress, Ok false)
          else
            let sourceRanges :=
              Strings.Split
                (mapIndex ingress.(Annotations) nginxWhitelistSourceRangeAnnotation)
                "," in
            let '(sourceRanges, updated) :=
              mergeProviderSourceRanges sourceRanges providerSourceRanges in
            if negb updated then ret (ingress, Ok false)
            else
              ret (setAnnotation ingress nginxWhitelistSourceRangeAnnotation
                     (Strings.Join sourceRanges ","),
                   Ok true)
      end).

End Service.

End monitor.

(** ** Package encoding/json, as far as [ParseJSON] uses it

    [json.Unmarshal] at the two slice types the builder decodes into: the
    decoded slice ([None] for the nil slice that the JSON value [null]
    decodes to), or the decoder's message. *)
Module json.

Class Library := {
  UnmarshalHeaders : string → string + option (list site24x7api.Header);
  UnmarshalActionRefs : string → string + option (list site24x7api.ActionRef)
}.

End json.

(** ** Package site24x7: the builder of provider-specific monitors *)
Module site24x7.
Import site24x7api.

(** The listing calls of the client library that the finalizers make. *)
Record Client := {
  LocationProfiles_List : result (list LocationProfile);
  NotificationProfiles_List : result (list NotificationProfile);
  ThresholdProfiles_List : result (list ThresholdProfile);
  MonitorGroups_List : result (list MonitorGroup);
  UserGroups_List : result (list UserGroup)
}.

Record builder := {
  client : Client;
  defaults : config.Site24x7MonitorDefaults
}.

Definition finalizer : Type := Monitor → result Monitor.

(** The assignments a finalizer makes through the monitor pointer. *)
Definition setLocationProfileID (m : Monitor) (id : string) : Monitor :=
  {| MonitorID := m.(MonitorID); DisplayName := m.(DisplayName);
     MonitorType := m.(MonitorType); Website := m.(Website);
     CheckFrequency := m.(CheckFrequency); HTTPMethod := m.(HTTPMethod);
     AuthUser := m.(AuthUser); AuthPass := m.(AuthPass);
     MatchCase := m.(MatchCase); UserAgent := m.(UserAgent);
     CustomHeaders := m.(CustomHeaders); Timeout := m.(Timeout);
     LocationProfileID := id;
     NotificationProfileID := m.(NotificationProfileID);
     ThresholdProfileID := m.(ThresholdProfileID);
     MonitorGroups := m.(MonitorGroups); UserGroupIDs := m.(UserGroupIDs);
     ActionIDs := m.(ActionIDs); UseNameServer := m.(UseNameServer) |}.

Definition setNotificationProfileID (m : Monitor) (id : string) : Monitor :=
  {| MonitorID := m.(MonitorID); DisplayName := m.(DisplayName);
     MonitorType := m.(MonitorType); Website := m.(Website);
     CheckFrequency := m.(CheckFrequency); HTTPMethod := m.(HTTPMethod);
     AuthUser := m.(AuthUser); AuthPass := m.(AuthPass);
     MatchCase := m.(MatchCase); UserAgent := m.(UserAgent);
     CustomHeaders := m.(CustomHeaders); Timeout := m.(Timeout);
     LocationProfileID := m.(LocationProfileID);
     NotificationProfileID := id;
     ThresholdProfileID := m.(ThresholdProfileID);
     MonitorGroups := m.(MonitorGroups); UserGroupIDs := m.(UserGroupIDs);
     ActionIDs := m.(ActionIDs); UseNameServer := m.(UseNameServer) |}.

Definition setThresholdProfileID (m : Monitor) (id : string) : Monitor :=
  {| MonitorID := m.(MonitorID); DisplayName := m.(DisplayName);
     MonitorType := m.(MonitorType); Website := m.(Website);
     CheckFrequency := m.(CheckFrequency); HTTPMethod := m.(HTTPMethod);
     AuthUser := m.(AuthUser); AuthPass := m.(AuthPass);
     MatchCase := m.(MatchCase); UserAgent := m.(UserAgent);
     CustomHeaders := m.(CustomHeaders); Timeout := m.(Timeout);
     LocationProfileID := m.(LocationProfileID);
     NotificationProfileID := m.(NotificationProfileID);
     ThresholdProfileID := id;
     MonitorGroups := m.(MonitorGroups); UserGroupIDs := m.(UserGroupIDs);
     ActionIDs := m.(ActionIDs); UseNameServer := m.(UseNameServer) |}.

Definition setMonitorGroups (m : Monitor) (ids : list string) : Monitor :=
  {| MonitorID := m.(MonitorID); DisplayName := m.(DisplayName);
     MonitorType := m.(MonitorType); Website := m.(Website);
     CheckFrequency := m.(CheckFrequency); HTTPMethod := m.(HTTPMethod);
     AuthUser := m.(AuthUser); AuthPass := m.(AuthPass);
     MatchCase := m.(MatchCase); UserAgent := m.(UserAgent);
     CustomHeaders := m.(CustomHeaders); Timeout := m.(Timeout);
     LocationProfileID := m.(LocationProfileID);
     NotificationProfileID := m.(NotificationProfileID);
     ThresholdProfileID := m.(ThresholdProfileID);
     MonitorGroups := ids; UserGroupIDs := m.(UserGroupIDs);
     ActionIDs := m.(ActionIDs); UseNameServer := m.(UseNameServer) |}.

Definition setUserGroupIDs (m : Monitor) (ids : list string) : Monitor :=
  {| MonitorID := m.(MonitorID); DisplayName := m.(DisplayName);
     MonitorType := m.(MonitorType); Website := m.(Website);
     CheckFrequency := m.(CheckFrequency); HTTPMethod := m.(HTTPMethod);
     AuthUser := m.(AuthUser); AuthPass := m.(AuthPass);
     MatchCase := m.(MatchCase); UserAgent := m.(UserAgent);
     CustomHeaders := m.(CustomHeaders); Timeout := m.(Timeout);
     LocationProfileID := m.(LocationProfileID);
     NotificationProfileID := m.(NotificationProfileID);
     ThresholdProfileID := m.(ThresholdProfileID);
     MonitorGroups := m.(MonitorGroups); UserGroupIDs := ids;
     ActionIDs := m.(ActionIDs); UseNameServer := m.(UseNameServer) |}.

(** Modelled from the spec: the five finalizers (their file is not among
    the sources).  Each is "capable of auto-discovering one
    grouping/profile identifier from the provider account when: (a) the
    corresponding auto-discovery flag is enabled in defaults, AND (b) the
    field was not already set by an override or default"; when triggered
    it "lists the provider's available profiles/groups of its kind" and
    takes the first listed (the documentation of the [Auto...] defaults:
    "the first ... returned by the Site24x7 API will be used"); "if the
    provider returns zero candidates, resolution fails with
    NoProfilesConfigured(kind)".  A finalizer sees the monitor only, so a
    field is set when it is not the zero value: a non-empty identifier, a
    non-empty list of identifiers.  An error of the listing call is
    returned as it is. *)
Definition finalizeLocationProfile (b : builder) : finalizer := λ monitor,
  if bool_decide (monitor.(LocationProfileID) ≠ EmptyString)
     || negb b.(defaults).(config.AutoLocationProfile) then Ok monitor
  else
    profiles ← b.(client).(LocationProfiles_List);
    match profiles with
    | [] => Err (ErrNoProfilesConfigured LocationProfileKind)
    | profile :: _ => Ok (setLocationProfileID monitor profile.(LocationProfile_ProfileID))
    end.

Definition finalizeNotificationProfile (b : builder) : finalizer := λ monitor,
  if bool_decide (monitor.(NotificationProfileID) ≠ EmptyString)
     || negb b.(defaults).(config.AutoNotificationProfile) then Ok monitor
  else
    profiles ← b.(client).(NotificationProfiles_List);
    match profiles with
    | [] => Err (ErrNoProfilesConfigured NotificationProfileKind)
    | profile :: _ =>
        Ok (setNotificationProfileID monitor profile.(NotificationProfile_ProfileID))
    end.

Definition finalizeThresholdProfile (b : builder) : finalizer := λ monitor,
  if bool_decide (monitor.(ThresholdProfileID) ≠ EmptyString)
     || negb b.(defaults).(config.AutoThresholdProfile) then Ok monitor
  else
    profiles ← b.(client).(ThresholdProfiles_List);
    match profiles with
    | [] => Err (ErrNoProfilesConfigured ThresholdProfileKind)
    | profile :: _ => Ok (setThresholdProfileID monitor profile.(ThresholdProfile_ProfileID))
    end.

Definition finalizeMonitorGroup (b : builder) : finalizer := λ monitor,
  if bool_decide (0 < List.length monitor.(MonitorGroups))%nat
     || negb b.(defaults).(config.AutoMonitorGroup) then Ok monitor
  else
    groups ← b.(client).(MonitorGroups_List);
    match groups with
    | [] => Err (ErrNoProfilesConfigured MonitorGroupKind)
    | group :: _ => Ok (setMonitorGroups monitor [group.(GroupID)])
    end.

Definition finalizeUserGroup (b : builder) : finalizer := λ monitor,
  if bool_decide (0 < List.length monitor.(UserGroupIDs))%nat
     || negb b.(defaults).(config.AutoUserGroup) then Ok monitor
  else
    groups ← b.(client).(UserGroups_List);
    match groups with
    | [] => Err (ErrNoProfilesConfigured UserGroupKind)
    | group :: _ => Ok (setUserGroupIDs monitor [group.(UserGroupID)])
    end.

(** The field [finalizers] that [newBuilder] fills: the five methods of
    the builder, in this order. *)
Definition finalizers (b : builder) : list finalizer :=
  [ finalizeLocationProfile b;
    finalizeNotificationProfile b;
    finalizeThresholdProfile b;
    finalizeMonitorGroup b;
    finalizeUserGroup b ].

(** The loop of [finalizeMonitor]: the first error ends it, and the
    monitor is returned only after the last finalizer. *)
Fixpoint runFinalizers (fs : list finalizer) (monitor : Monitor) : result Monitor :=
  match fs with
  | [] => Ok monitor
  | f :: fs' =>
      match f monitor with
      | Ok monitor' => runFinalizers fs' monitor'
      | Err err => Err err
      | Panic => Panic
      end
  end.

Definition finalizeMonitor (b : builder) (monitor : Monitor) : result Monitor :=
  runFinalizers (finalizers b) monitor.

Section FromModel.
Context `{json.Library}.

(** [FromModel] up to its return statement: the monitor with every
    field assigned from its annotation or its default, before the
    finalizers run. *)
Definition resolveFields (b : builder) (model : models.Monitor) : result Monitor :=
  let anno := model.(models.Annotations) in
  let defaults := b.(defaults) in
  customHeaders ←
    config.ParseJSON anno config.AnnotationSite24x7CustomHeaders
      json.UnmarshalHeaders None;
  let customHeaders :=
    match customHeaders with
    | None => defaults.(config.CustomHeaders)
    | Some _ => customHeaders
    end in
  actionIDs ←
    config.ParseJSON anno config.AnnotationSite24x7Actions
      json.UnmarshalActionRefs None;
  let actionIDs :=
    match actionIDs with
    | None => defaults.(config.Actions)
    | Some _ => actionIDs
    end in
  Ok
    {| MonitorType := "URL";
       MonitorID := model.(models.ID);
       DisplayName := model.(models.Name);
       Website := model.(models.URL);
       CheckFrequency :=
         config.StringValue anno config.AnnotationSite24x7CheckFrequency
           defaults.(config.CheckFrequency);
       HTTPMethod :=
         config.StringValue anno config.AnnotationSite24x7HTTPMethod
           defaults.(config.HTTPMethod);
       AuthUser :=
         config.StringValue anno config.AnnotationSite24x7AuthUser
           defaults.(config.AuthUser);
       AuthPass :=
         config.StringValue anno config.AnnotationSite24x7AuthPass
           defaults.(config.AuthPass);
       MatchCase :=
         config.BoolValue anno config.AnnotationSite24x7MatchCase
           defaults.(config.MatchCase);
       UserAgent :=
         config.StringValue anno config.AnnotationSite24x7UserAgent
           defaults.(config.UserAgent);
       Timeout :=
         config.IntValue anno config.AnnotationSite24x7Timeout
           defaults.(config.Timeout);
       UseNameServer :=
         config.BoolValue anno config.AnnotationSite24x7UseNameServer
           defaults.(config.UseNameServer);
       UserGroupIDs :=
         config.StringSliceValue anno config.AnnotationSite24x7UserGroupIDs
           defaults.(config.UserGroupIDs);
       MonitorGroups :=
         config.StringSliceValue anno config.AnnotationSite24x7MonitorGroupIDs
           defaults.(config.MonitorGroupIDs);
       LocationProfileID :=
         config.StringValue anno config.AnnotationSite24x7LocationProfileID
           defaults.(config.LocationProfileID);
       NotificationProfileID :=
         config.StringValue anno config.AnnotationSite24x7NotificationProfileID
           defaults.(config.NotificationProfileID);
       ThresholdProfileID :=
         config.StringValue anno config.AnnotationSite24x7ThresholdProfileID
           defaults.(config.ThresholdProfileID);
       CustomHeaders := customHeaders;
       ActionIDs := actionIDs |}.

Definition FromModel (b : builder) (model : models.Monitor) : result Monitor :=
  monitor ← resolveFields b model;
  finalizeMonitor b monitor.

End FromModel.

End site24x7.

(** * Definitions used to state the properties *)

(** ** What validation and the URL builder consult *)
Module IngressSpec.
Import networkingv1.

(** The first host of the first TLS entry, if the ingress has one. *)
Definition firstTLSHost (ing : Ingress) : option string :=
  tls0 ← ing.(Spec).(TLS) !! 0%nat; tls0.(Hosts) !! 0%nat.

(** The host of the first rule, if the ingress has a rule. *)
Definition firstRuleHost (ing : Ingress) : option string :=
  Host <$> ing.(Spec).(Rules) !! 0%nat.

(** TLS is configured with a non-empty first host. *)
Definition configuredTLSHost (ing : Ingress) : option string :=
  match firstTLSHost ing with
  | Some host => if bool_decide (host = EmptyString) then None else Some host
  | None => None
  end.

(** The three validation rules in the words of the specification, as a
    function of the two hosts alone: "checked in order, first failure
    wins". *)
Definition ValidationRules (tlsHost ruleHost : option string) : result unit :=
  match tlsHost with
  | Some host =>
      if negb (bool_decide (host = EmptyString)) && ingress.containsWildcard host
      then Err (ErrTLSHostWildcard host)
      else
        match ruleHost with
        | None => Err ErrNoRules
        | Some host' =>
            if ingress.containsWildcard host' then Err (ErrHostWildcard host')
            else Ok ()
        end
  | None =>
      match ruleHost with
      | None => Err ErrNoRules
      | Some host' =>
          if ingress.containsWildcard host' then Err (ErrHostWildcard host')
          else Ok ()
      end
  end.

(** An annotation is boolean-true: present, and its value parses as the
    boolean [true]. *)
Definition booleanTrue (a : config.Annotations) (key : string) : bool :=
  match a !! key with
  | Some value =>
      match strconv.ParseBool value with
      | Some true => true
      | _ => false
      end
  | None => false
  end.

(** The scheme and host of the monitored URL in the priority order of the
    specification. *)
Definition schemeAndHost (ing : Ingress) : option (string * string) :=
  match configuredTLSHost ing with
  | Some host => Some ("https", host)
  | None =>
      host ← firstRuleHost ing;
      if booleanTrue ing.(Annotations) config.AnnotationForceHTTPS
         || booleanTrue ing.(Annotations) ingress.nginxForceSSLRedirectAnnotation
      then Some ("https", host)
      else Some ("http", host)
  end.

(** The ingress that carries the metadata of [ing] and nothing else, like
    the one the reconciler makes for a deleted ingress. *)
Definition metadataOnly (ing : Ingress) : Ingress :=
  {| Name := ing.(Name);
     Namespace := ing.(Namespace);
     Annotations := ∅;
     Spec := {| TLS := []; Rules := [] |} |}.

End IngressSpec.

(** ** The finalizers by kind *)
Module BuilderSpec.
Import site24x7api site24x7.

(** The auto-discovery flag of a kind in the defaults. *)
Definition autoDiscovery (d : config.Site24x7MonitorDefaults) (k : ProfileKind) : bool :=
  match k with
  | LocationProfileKind => d.(config.AutoLocationProfile)
  | NotificationProfileKind => d.(config.AutoNotificationProfile)
  | ThresholdProfileKind => d.(config.AutoThresholdProfile)
  | MonitorGroupKind => d.(config.AutoMonitorGroup)
  | UserGroupKind => d.(config.AutoUserGroup)
  end.

(** The kinds in the order in which their finalizers run. *)
Definition kinds : list ProfileKind :=
  [ LocationProfileKind; NotificationProfileKind; ThresholdProfileKind;
    MonitorGroupKind; UserGroupKind ].

(** The field of a kind is unset: the empty identifier, no group. *)
Definition fieldUnset (m : Monitor) (k : ProfileKind) : bool :=
  match k with
  | LocationProfileKind => bool_decide (m.(LocationProfileID) = EmptyString)
  | NotificationProfileKind => bool_decide (m.(NotificationProfileID) = EmptyString)
  | ThresholdProfileKind => bool_decide (m.(ThresholdProfileID) = EmptyString)
  | MonitorGroupKind => bool_decide (m.(MonitorGroups) = [])
  | UserGroupKind => bool_decide (m.(UserGroupIDs) = [])
  end.

(** The field of a kind has the same value in two monitors. *)
Definition sameField (k : ProfileKind) (m m' : Monitor) : Prop :=
  match k with
  | LocationProfileKind => m'.(LocationProfileID) = m.(LocationProfileID)
  | NotificationProfileKind => m'.(NotificationProfileID) = m.(NotificationProfileID)
  | ThresholdProfileKind => m'.(ThresholdProfileID) = m.(ThresholdProfileID)
  | MonitorGroupKind => m'.(MonitorGroups) = m.(MonitorGroups)
  | UserGroupKind => m'.(UserGroupIDs) = m.(UserGroupIDs)
  end.

(** The fields that no finalizer assigns have the same values in two
    monitors. *)
Definition sameOtherFields (m m' : Monitor) : Prop :=
  m'.(MonitorID) = m.(MonitorID) ∧ m'.(DisplayName) = m.(DisplayName)
  ∧ m'.(MonitorType) = m.(MonitorType) ∧ m'.(Website) = m.(Website)
  ∧ m'.(CheckFrequency) = m.(CheckFrequency) ∧ m'.(HTTPMethod) = m.(HTTPMethod)
  ∧ m'.(AuthUser) = m.(AuthUser) ∧ m'.(AuthPass) = m.(AuthPass)
  ∧ m'.(MatchCase) = m.(MatchCase) ∧ m'.(UserAgent) = m.(UserAgent)
  ∧ m'.(CustomHeaders) = m.(CustomHeaders) ∧ m'.(Timeout) = m.(Timeout)
  ∧ m'.(ActionIDs) = m.(ActionIDs) ∧ m'.(UseNameServer) = m.(UseNameServer).

(** The assignment a finalizer of kind [k] makes for the identifier [id]. *)
Definition setField (m : Monitor) (k : ProfileKind) (id : string) : Monitor :=
  match k with
  | LocationProfileKind => setLocationProfileID m id
  | NotificationProfileKind => setNotificationProfileID m id
  | ThresholdProfileKind => setThresholdProfileID m id
  | MonitorGroupKind => setMonitorGroups m [id]
  | UserGroupKind => setUserGroupIDs m [id]
  end.

(** The field of a kind holds exactly the identifier [id]. *)
Definition fieldHolds (m : Monitor) (k : ProfileKind) (id : string) : Prop :=
  match k with
  | LocationProfileKind => m.(LocationProfileID) = id
  | NotificationProfileKind => m.(NotificationProfileID) = id
  | ThresholdProfileKind => m.(ThresholdProfileID) = id
  | MonitorGroupKind => m.(MonitorGroups) = [id]
  | UserGroupKind => m.(UserGroupIDs) = [id]
  end.

(** The identifiers of the candidates the provider lists for a kind, in
    the order of the listing. *)
Definition candidates (c : Client) (k : ProfileKind) : result (list string) :=
  match k with
  | LocationProfileKind => List.map LocationProfile_ProfileID <$> c.(LocationProfiles_List)
  | NotificationProfileKind =>
      List.map NotificationProfile_ProfileID <$> c.(NotificationProfiles_List)
  | ThresholdProfileKind => List.map ThresholdProfile_ProfileID <$> c.(ThresholdProfiles_List)
  | MonitorGroupKind => List.map GroupID <$> c.(MonitorGroups_List)
  | UserGroupKind => List.map UserGroupID <$> c.(UserGroups_List)
  end.

Definition finalizerOf (b : builder) (k : ProfileKind) : finalizer :=
  match k with
  | LocationProfileKind => finalizeLocationProfile b
  | NotificationProfileKind => finalizeNotificationProfile b
  | ThresholdProfileKind => finalizeThresholdProfile b
  | MonitorGroupKind => finalizeMonitorGroup b
  | UserGroupKind => finalizeUserGroup b
  end.

(** The finalizers that run before the one of kind [k]. *)
Definition finalizersBefore (b : builder) (k : ProfileKind) : list finalizer :=
  match k with
  | LocationProfileKind => []
  | NotificationProfileKind => take 1 (finalizers b)
  | ThresholdProfileKind => take 2 (finalizers b)
  | MonitorGroupKind => take 3 (finalizers b)
  | UserGroupKind => take 4 (finalizers b)
  end.

End BuilderSpec.

(** ** Concrete libraries, providers and ingresses for the examples *)
Module Examples.
Import networkingv1.

(** A parser and printer for URLs of the form [http://host] and
    [https://host] whose host is made of letters, digits, dots and dashes;
    every other string is refused.  On these URLs, and on paths made of
    such bytes, it computes what [net/url] computes: no user, port, query
    or fragment, and [String] puts a slash before a path that lacks
    one. *)
Record simpleURL := { Scheme : string; URLHost : string; Path : string }.

Definition hostByte (c : ascii) : bool :=
  let n := N_of_ascii c in
  ((48 <=? n) && (n <=? 57) || (65 <=? n) && (n <=? 90)
   || (97 <=? n) && (n <=? 122) || (n =? 45) || (n =? 46))%N.

Definition validHost (host : string) : bool :=
  forallb hostByte (list_ascii_of_string host).

Definition dropPrefix (pre s : string) : option string :=
  if String.prefix pre s
  then Some (String.substring (String.length pre)
               (String.length s - String.length pre) s)
  else None.

Definition simpleParse (rawURL : string) : result simpleURL :=
  match dropPrefix "https://" rawURL, dropPrefix "http://" rawURL with
  | Some host, _ =>
      if validHost host then Ok {| Scheme := "https"; URLHost := host; Path := "" |}
      else Err (ErrExternal "invalid character in host name")
  | None, Some host =>
      if validHost host then Ok {| Scheme := "http"; URLHost := host; Path := "" |}
      else Err (ErrExternal "invalid character in host name")
  | None, None => Err (ErrExternal "unsupported url")
  end.

Definition simpleString (u : simpleURL) : string :=
  u.(Scheme) +:+ "://" +:+ u.(URLHost) +:+
  match u.(Path) with
  | EmptyString => EmptyString
  | String "/" _ => u.(Path)
  | _ => "/" +:+ u.(Path)
  end.

#[global] Instance simpleURLs : url.Library := {|
  url.URL := simpleURL;
  url.Parse := simpleParse;
  url.withPath := λ u path,
    {| Scheme := u.(Scheme); URLHost := u.(URLHost); Path := path |};
  url.String := simpleString
|}.

(** A decoder that knows the JSON values [null] (the nil slice) and [[]]
    (the empty slice) and refuses every other text.  It stands in for
    [encoding/json] on the inputs of the examples: these two values, and
    text that is not JSON. *)
Definition nullOrEmpty {T : Type} (data : string) : string + option (list T) :=
  if bool_decide (data = "null") then inr None
  else if bool_decide (data = "[]") then inr (Some [])
  else inl "invalid character".

#[global] Instance smallJSON : json.Library := {|
  json.UnmarshalHeaders := nullOrEmpty;
  json.UnmarshalActionRefs := nullOrEmpty
|}.

Definition testService (noDelete : bool) : monitor.service :=
  {| monitor.namer := monitor.defaultNamer;
     monitor.options := {| config.NoDelete := noDelete |} |}.

(** The ingress of the service tests: [kube-system/foo] with the single
    rule host [foo.bar.baz]. *)
Definition fooIngress (annotations : config.Annotations) : Ingress :=
  {| Name := "foo";
     Namespace := "kube-system";
     Annotations := annotations;
     Spec := {| TLS := []; Rules := [ {| Host := "foo.bar.baz" |} ] |} |}.

(** The ingress of the service test "invalid ingress returns error": it
    passes validation and its host is not one a URL can have. *)
Definition invalidHostIngress : Ingress :=
  {| Name := "foo";
     Namespace := "kube-system";
     Annotations := ∅;
     Spec := {| TLS := []; Rules := [ {| Host := "{invalidhost" |} ] |} |}.

(** The metadata-only ingress of the tests: no rules. *)
Definition bareIngress : Ingress :=
  {| Name := "foo";
     Namespace := "kube-system";
     Annotations := ∅;
     Spec := {| TLS := []; Rules := [] |} |}.

Definition enabled : config.Annotations := {[ config.AnnotationEnabled := "true" ]}.

(** A provider that fails the test when called. *)
Definition unusedProvider : fake.Provider :=
  {| fake.onCreate := λ _, Some (ErrExternal "unexpected call");
     fake.onGet := λ _, (None, Some (ErrExternal "unexpected call"));
     fake.onUpdate := λ _, Some (ErrExternal "unexpected call");
     fake.onDelete := λ _, Some (ErrExternal "unexpected call");
     fake.onGetIPSourceRanges := λ _, ([], Some (ErrExternal "unexpected call")) |}.

(** A provider whose lookup and other calls answer as given. *)
Definition scriptedProvider (get : option models.Monitor * option error)
    (delete : option error) (ranges : list string * option error) : fake.Provider :=
  {| fake.onCreate := λ _, None;
     fake.onGet := λ _, get;
     fake.onUpdate := λ _, None;
     fake.onDelete := λ _, delete;
     fake.onGetIPSourceRanges := λ _, ranges |}.

Definition emptyDefaults : config.Site24x7MonitorDefaults :=
  {| config.Actions := None; config.AuthPass := ""; config.AuthUser := "";
     config.AutoLocationProfile := false; config.AutoNotificationProfile := false;
     config.AutoThresholdProfile := false; config.AutoMonitorGroup := false;
     config.AutoUserGroup := false; config.CheckFrequency := "";
     config.CustomHeaders := None; config.HTTPMethod := "";
     config.LocationProfileID := ""; config.MatchCase := false;
     config.MonitorGroupIDs := []; config.NotificationProfileID := "";
     config.ThresholdProfileID := ""; config.Timeout := 0;
     config.UseNameServer := false; config.UserAgent := "";
     config.UserGroupIDs := [] |}.

(** The defaults of the provider tests that enable auto-discovery of the
    location profile only. *)
Definition autoLocationDefaults : config.Site24x7MonitorDefaults :=
  {| config.Actions := None; config.AuthPass := ""; config.AuthUser := "";
     config.AutoLocationProfile := true; config.AutoNotificationProfile := false;
     config.AutoThresholdProfile := false; config.AutoMonitorGroup := false;
     config.AutoUserGroup := false; config.CheckFrequency := "";
     config.CustomHeaders := None; config.HTTPMethod := "";
     config.LocationProfileID := ""; config.MatchCase := false;
     config.MonitorGroupIDs := []; config.NotificationProfileID := "";
     config.ThresholdProfileID := ""; config.Timeout := 0;
     config.UseNameServer := false; config.UserAgent := "";
     config.UserGroupIDs := [] |}.

(** A client whose account lists the given location profiles and nothing
    else. *)
Definition clientWithLocations (ids : list string) : site24x7.Client :=
  {| site24x7.LocationProfiles_List :=
       Ok ((λ id, {| site24x7api.LocationProfile_ProfileID := id |}) <$> ids);
     site24x7.NotificationProfiles_List := Ok [];
     site24x7.ThresholdProfiles_List := Ok [];
     site24x7.MonitorGroups_List := Ok [];
     site24x7.UserGroups_List := Ok [] |}.

Definition myMonitor (annotations : config.Annotations) : models.Monitor :=
  {| models.ID := ""; models.Name := "my-monitor"; models.URL := "http://my-monitor";
     models.Annotations := annotations |}.

(** An ingress whose TLS host has a wildcard and that has no rules. *)
Definition wildcardTLSNoRules : Ingress :=
  {| Name := "foo"; Namespace := "kube-system"; Annotations := ∅;
     Spec := {| TLS := [ {| Hosts := ["*.bar.baz"] |} ]; Rules := [] |} |}.

(** The annotations of the URL test "respect path override annotation". *)
Definition forceHTTPSWithPath : config.Annotations :=
  {[ config.AnnotationForceHTTPS := "true"; config.AnnotationPathOverride := "health" ]}.

(** The monitor the lookup finds in the test of the update path. *)
Definition foundMonitor : models.Monitor :=
  {| models.ID := "123"; models.Name := "kube-system-foo";
     models.URL := "http://bar.baz"; models.Annotations := ∅ |}.

Definition findingProvider : fake.Provider :=
  scriptedProvider (Some foundMonitor, None) None ([], None).

Definition notFindingProvider : fake.Provider :=
  scriptedProvider (None, Some ErrMonitorNotFound) (Some ErrMonitorNotFound) ([], None).

Definition failingProvider : fake.Provider :=
  scriptedProvider (None, Some (ErrExternal "error")) (Some (ErrExternal "error"))
    ([], Some (ErrExternal "whoops")).

(** The ingress and the provider of the annotation test "already present
    source ranges are not added again". *)
Definition whitelisted : config.Annotations :=
  <[ monitor.nginxWhitelistSourceRangeAnnotation := "1.2.3.4/32" ]> enabled.

Definition rangesProvider : fake.Provider :=
  scriptedProvider (None, Some ErrMonitorNotFound) None
    (["5.6.7.8/32"; "1.2.3.4/32"], None).

(** The builder of the provider tests that auto-discovers the location
    profile, over an account with the given location profiles. *)
Definition autoLocationBuilder (ids : list string) : site24x7.builder :=
  {| site24x7.client := clientWithLocations ids;
     site24x7.defaults := autoLocationDefaults |}.

(** The service of the tests: the default name template, deletion
    enabled. *)
Definition testSvc : monitor.service := testService false.

(** The model whose location profile annotation is present and empty. *)
Definition emptyLocationOverride : models.Monitor :=
  myMonitor {[ config.AnnotationSite24x7LocationProfileID := "" ]}.

(** The model of the provider test "do not create monitor if the ingress
    annotations are invalid". *)
Definition invalidActions : models.Monitor :=
  myMonitor {[ config.AnnotationSite24x7Actions := "{invalidjson" ]}.

(** Defaults that carry one custom header. *)
Definition headerDefaults : config.Site24x7MonitorDefaults :=
  {| config.Actions := None; config.AuthPass := ""; config.AuthUser := "";
     config.AutoLocationProfile := false; config.AutoNotificationProfile := false;
     config.AutoThresholdProfile := false; config.AutoMonitorGroup := false;
     config.AutoUserGroup := false; config.CheckFrequency := "";
     config.CustomHeaders :=
       Some [ {| site24x7api.HeaderName := "X-Monitor-Created-By";
                 site24x7api.HeaderValue := "ingress-monitor-controller" |} ];
     config.HTTPMethod := "";
     config.LocationProfileID := ""; config.MatchCase := false;
     config.MonitorGroupIDs := []; config.NotificationProfileID := "";
     config.ThresholdProfileID := ""; config.Timeout := 0;
     config.UseNameServer := false; config.UserAgent := "";
     config.UserGroupIDs := [] |}.

Definition headerBuilder : site24x7.builder :=
  {| site24x7.client := clientWithLocations []; site24x7.defaults := headerDefaults |}.

End Examples.

(** * The reconciler and the Site24x7 provider *)

(** ** Package controller: the reconciler

    The cluster client ([client.Client] of controller-runtime) is an
    interface over a state of type [K]: [Get] answers with the ingress and
    its creation timestamp, with a not-found error
    ([apierrors.IsNotFound]) or with another error; [Update] writes an
    ingress back.  Times are nanoseconds since the epoch and durations are
    nanoseconds; the reading of the clock during a call is an argument of
    [Reconcile]. *)
Module controller.
Import networkingv1.

Record Request := { ReqName : string; ReqNamespace : string }.

(** [reconcile.Result]: the field the reconciler sets. *)
Record Result := { RequeueAfter : Z }.

Definition noRequeue : Result := {| RequeueAfter := 0 |}.

Inductive GetOutcome :=
| Found (ingress : Ingress) (creationTimestamp : Z)
| NotFound
| GetFailed (err : error).

Class Client (K : Type) := {
  Get : Request → K → GetOutcome * K;
  Update : Ingress → K → option error * K
}.

(** One entry of the log of cluster calls. *)
Inductive ClusterCall :=
| ClusterGet (req : Request)
| ClusterUpdate (ingress : Ingress).

(** [time.Until(t)] is [t.Sub(time.Now())]: the difference, kept within the
    range of a [time.Duration]. *)
Definition minDuration : Z := - 2 ^ 63.
Definition maxDuration : Z := 2 ^ 63 - 1.

Definition Until (t now : Z) : Z :=
  Z.max minDuration (Z.min maxDuration (t - now)).

Record IngressReconciler := {
  monitorService : monitor.service;
  creationDelay : Z
}.

Section Reconciler.
Context `{url.Library} {P : Type} `{provider.Interface P} {K : Type} `{Client K}.

(** The cluster client with the log of the calls made to it, and the world
    of the monitor service. *)
Definition World : Type := (K * list ClusterCall) * @monitor.World P.

Definition R (A : Type) : Type := World → A * World.

Definition ret {A} (a : A) : R A := λ w, (a, w).
Definition bind {A B} (m : R A) (f : A → R B) : R B :=
  λ w, let '(a, w') := m w in f a w'.

Definition service {A} (m : @monitor.M P A) : R A :=
  λ '(c, w), let '(a, w') := m w in (a, (c, w')).

Definition clientGet (req : Request) : R GetOutcome :=
  λ '((k, log), w), let '(r, k') := Get req k in
                    (r, ((k', log ++ [ClusterGet req]), w)).

Definition clientUpdate (ingress : Ingress) : R (option error) :=
  λ '((k, log), w), let '(r, k') := Update ingress k in
                    (r, ((k', log ++ [ClusterUpdate ingress]), w)).

(** [DeepCopy] makes the copy that [AnnotateIngress] writes to; the ingress
    passed in is not written to. *)
Definition reconcileAnnotations (r : IngressReconciler) (ingress : Ingress)
  : R (result bool) :=
  let ingressCopy := ingress in
  bind (service (monitor.AnnotateIngress r.(monitorService) ingressCopy))
    (λ '(ingressCopy, annotated),
      match annotated with
      | Err err => ret (Err err)
      | Panic => ret Panic
      | Ok false => ret (Ok false)
      | Ok true =>
          bind (clientUpdate ingressCopy) (λ err,
            match err with
            | Some err => ret (Err err)
            | None => ret (Ok true)
            end)
      end).

Definition handleCreateOrUpdate (r : IngressReconciler) (ingress : Ingress)
  : R (result unit) :=
  bind (reconcileAnnotations r ingress) (λ updated,
    match updated with
    | Err err => ret (Err err)
    | Panic => ret Panic
    | Ok true => ret (Ok ())
    | Ok false => service (monitor.EnsureMonitor r.(monitorService) ingress)
    end).

(** The ingress made for a deleted one: the metadata of the request. *)
Definition deletedIngress (req : Request) : Ingress :=
  {| Name := req.(ReqName);
     Namespace := req.(ReqNamespace);
     Annotations := ∅;
     Spec := {| TLS := []; Rules := [] |} |}.

Definition Reconcile (r : IngressReconciler) (now : Z) (req : Request)
  : R (Result * result unit) :=
  bind (clientGet req) (λ outcome,
    match outcome with
    | NotFound =>
        bind (service (monitor.DeleteMonitor r.(monitorService) (deletedIngress req)))
          (λ err, ret (noRequeue, err))
    | Found ingress creationTimestamp =>
        if bool_decide (monitor.mapIndex ingress.(Annotations) config.AnnotationEnabled
                        = "true") then
          let createAfter := Until (creationTimestamp + r.(creationDelay)) now in
          if bool_decide (0 < createAfter) then
            ret ({| RequeueAfter := createAfter |}, Ok ())
          else
            bind (handleCreateOrUpdate r ingress) (λ err, ret (noRequeue, err))
        else
          bind (service (monitor.DeleteMonitor r.(monitorService) ingress))
            (λ err, ret (noRequeue, err))
    | GetFailed err => ret (noRequeue, Err err)
    end).

End Reconciler.

End controller.

(** ** Package github.com/pkg/errors, as far as the provider uses it

    [errors.Wrapf(err, format, ...)] of a non-nil error makes a new error
    value around it; being new, it is not the value
    [models.ErrMonitorNotFound].  The format string stands for the message:
    the formatted arguments are not rendered. *)
Module pkgerrors.

Class Library := {
  Wrapf : error → string → error;
  Wrapf_new : ∀ err format, Wrapf err format ≠ ErrMonitorNotFound
}.

End pkgerrors.

(** ** Package site24x7: the provider

    The client library is an interface over the state [C] of the Site24x7
    account as the client sees it; the expiring cache of apimachinery is an
    interface over its state [T], which includes its clock. *)
Module site24x7Provider.
Import site24x7api.

Class API (C : Type) := {
  (** a location profile as the API returns it *)
  ProfileObject : Type;
  (** [location.ProfileIPProvider] *)
  IPProvider : Type;
  Monitors_Create : Monitor → C → option error * C;
  Monitors_List : C → (list Monitor * option error) * C;
  Monitors_Update : Monitor → C → option error * C;
  Monitors_Delete : string → C → option error * C;
  LocationProfiles_Get : string → C → (option ProfileObject * option error) * C;
  NewDefaultProfileIPProvider : C → (option IPProvider * option error) * C;
  GetLocationIPs : IPProvider → option ProfileObject → C → (list string * option error) * C
}.

Class Cache (T : Type) := {
  (** [Get(key)]: the value and [true], or [false] *)
  cacheGet : string → T → option (list string);
  (** [Set(key, val, ttl)] *)
  cacheSet : string → list string → Z → T → T
}.

(** One entry of the log of calls to the client library. *)
Inductive APICall :=
| CallMonitorsCreate (monitor : Monitor)
| CallMonitorsList
| CallMonitorsUpdate (monitor : Monitor)
| CallMonitorsDelete (monitorID : string)
| CallLocationProfilesGet (profileID : string)
| CallNewDefaultProfileIPProvider
| CallGetLocationIPs.

(** [24*time.Hour] in nanoseconds. *)
Definition day : Z := 24 * 3600 * 1000000000.

Section Provider.
Context `{json.Library} `{pkgerrors.Library} {C T : Type} `{API C} `{Cache T}.

(** The provider: its client with the log of the calls made through it,
    the lazily created IP provider, the builder and the cache. *)
Record Provider := {
  client : C;
  calls : list APICall;
  ipProvider : option IPProvider;
  builder : site24x7.builder;
  sourceRangeCache : T
}.

Definition S (A : Type) : Type := Provider → A * Provider.

Definition ret {A} (a : A) : S A := λ p, (a, p).
Definition bind {A B} (m : S A) (f : A → S B) : S B :=
  λ p, let '(a, p') := m p in f a p'.

(** A call through the client: the account moves on and the call is
    logged. *)
Definition api {A} (call : APICall) (f : C → A * C) : S A :=
  λ p, let '(a, c') := f p.(client) in
       (a, {| client := c'; calls := p.(calls) ++ [call];
              ipProvider := p.(ipProvider); builder := p.(builder);
              sourceRangeCache := p.(sourceRangeCache) |}).

Definition setIPProvider (ipp : option IPProvider) : S unit :=
  λ p, ((), {| client := p.(client); calls := p.(calls);
               ipProvider := ipp; builder := p.(builder);
               sourceRangeCache := p.(sourceRangeCache) |}).

Definition setCache (key : string) (value : list string) (ttl : Z) : S unit :=
  λ p, ((), {| client := p.(client); calls := p.(calls);
               ipProvider := p.(ipProvider); builder := p.(builder);
               sourceRangeCache := cacheSet key value ttl p.(sourceRangeCache) |}).

Definition Create (model : models.Monitor) : S (result unit) :=
  λ p,
    match site24x7.FromModel p.(builder) model with
    | Err err =>
        (Err (pkgerrors.Wrapf err "failed to build site24x7 monitor from model: %#v"), p)
    | Panic => (Panic, p)
    | Ok monitor =>
        bind (api (CallMonitorsCreate monitor) (Monitors_Create monitor)) (λ err,
          match err with
          | Some err =>
              ret (Err (pkgerrors.Wrapf err "failed to create site24x7 monitor: %#v"))
          | None => ret (Ok ())
          end) p
    end.

(** The loop of [Get]: the first monitor with the display name. *)
Fixpoint findByName (monitors : list Monitor) (name : string) : option models.Monitor :=
  match monitors with
  | [] => None
  | monitor :: rest =>
      if bool_decide (monitor.(DisplayName) ≠ name) then findByName rest name
      else Some {| models.ID := monitor.(MonitorID);
                   models.Name := monitor.(DisplayName);
                   models.URL := monitor.(Website);
                   models.Annotations := ∅ |}
  end.

Definition Get (name : string) : S (result models.Monitor) :=
  bind (api CallMonitorsList Monitors_List) (λ '(monitors, err),
    match err with
    | Some err => ret (Err (pkgerrors.Wrapf err "failed to list site24x7 monitors"))
    | None =>
        match findByName monitors name with
        | Some m => ret (Ok m)
        | None => ret (Err ErrMonitorNotFound)
        end
    end).

Definition Update (model : models.Monitor) : S (result unit) :=
  λ p,
    match site24x7.FromModel p.(builder) model with
    | Err err =>
        (Err (pkgerrors.Wrapf err "failed to build site24x7 monitor from model: %#v"), p)
    | Panic => (Panic, p)
    | Ok monitor =>
        bind (api (CallMonitorsUpdate monitor) (Monitors_Update monitor)) (λ err,
          match err with
          | Some err =>
              ret (Err (pkgerrors.Wrapf err "failed to update site24x7 monitor: %#v"))
          | None => ret (Ok ())
          end) p
    end.

Definition Delete (name : string) : S (result unit) :=
  bind (Get name) (λ found,
    match found with
    | Err err => ret (Err err)
    | Panic => ret Panic
    | Ok monitor =>
        bind (api (CallMonitorsDelete monitor.(models.ID))
                (Monitors_Delete monitor.(models.ID))) (λ err,
          match err with
          | Some err =>
              ret (Err (pkgerrors.Wrapf err
                          "failed to delete site24x7 monitor with ID %s"))
          | None => ret (Ok ())
          end)
    end).

(** [getProfileIPProvider]: the IP provider is created on first use, and
    what the constructor returns is stored whether or not it failed. *)
Definition getProfileIPProvider : S (option IPProvider * option error) :=
  λ p,
    match p.(ipProvider) with
    | None =>
        bind (api CallNewDefaultProfileIPProvider NewDefaultProfileIPProvider)
          (λ '(ipp, err), bind (setIPProvider ipp) (λ _, ret (ipp, err))) p
    | Some ipp => ((Some ipp, None), p)
    end.

(** Calling [GetLocationIPs] through a nil IP provider panics. *)
Definition GetIPSourceRanges (model : models.Monitor) : S (result (list string)) :=
  λ p,
    match site24x7.FromModel p.(builder) model with
    | Err err => (Err err, p)
    | Panic => (Panic, p)
    | Ok monitor =>
        match cacheGet monitor.(LocationProfileID) p.(sourceRangeCache) with
        | Some cachedSourceRanges => (Ok cachedSourceRanges, p)
        | None =>
            bind getProfileIPProvider (λ '(ipProvider, err),
              match err with
              | Some err => ret (Err err)
              | None =>
                  bind (api (CallLocationProfilesGet monitor.(LocationProfileID))
                          (LocationProfiles_Get monitor.(LocationProfileID)))
                    (λ '(locationProfile, err),
                      match err with
                      | Some err => ret (Err err)
                      | None =>
                          match ipProvider with
                          | None => ret Panic
                          | Some ipProvider =>
                              bind (api CallGetLocationIPs
                                      (GetLocationIPs ipProvider locationProfile))
                                (λ '(locationIPs, err),
                                  match err with
                                  | Some err => ret (Err err)
                                  | None =>
                                      let sourceRanges :=
                                        (λ ip, ip +:+ "/32") <$> locationIPs in
                                      bind (setCache monitor.(LocationProfileID)
                                              sourceRanges day)
                                        (λ _, ret (Ok sourceRanges))
                                  end)
                          end
                      end)
              end) p
        end
    end.

(** The provider as a [provider.Interface].  The interface has no place
    for a panic of a provider; one that the client library raises inside
    the builder is passed on as an error. *)
Definition errorOf {A} (r : result A) : option error :=
  match r with
  | Ok _ => None
  | Err err => Some err
  | Panic => Some (ErrExternal "panic")
  end.

Definition valueOf {A} (r : result A) : option A :=
  match r with Ok a => Some a | _ => None end.

#[global] Instance Interface : provider.Interface Provider := {|
  provider.Create := λ model p, let '(r, p') := Create model p in (errorOf r, p');
  provider.Get := λ name p, let '(r, p') := Get name p in ((valueOf r, errorOf r), p');
  provider.Update := λ model p, let '(r, p') := Update model p in (errorOf r, p');
  provider.Delete := λ name p, let '(r, p') := Delete name p in (errorOf r, p');
  provider.GetIPSourceRanges := λ model p,
    let '(r, p') := GetIPSourceRanges model p in
    ((default [] (valueOf r), errorOf r), p')
|}.

End Provider.

End site24x7Provider.

(** ** Definitions used to state the further properties *)
Module ExtraSpec.

(** The string has no byte [sep]. *)
Definition freeOf (sep : ascii) (s : string) : Prop :=
  sep ∉ list_ascii_of_string s.

(** The ingress without its TLS entries. *)
Definition withoutTLS (ing : networkingv1.Ingress) : networkingv1.Ingress :=
  {| networkingv1.Name := ing.(networkingv1.Name);
     networkingv1.Namespace := ing.(networkingv1.Namespace);
     networkingv1.Annotations := ing.(networkingv1.Annotations);
     networkingv1.Spec :=
       {| networkingv1.TLS := [];
          networkingv1.Rules := ing.(networkingv1.Spec).(networkingv1.Rules) |} |}.

(** The entries of the whitelist annotation of an ingress. *)
Definition whitelistEntries (ing : networkingv1.Ingress) : list string :=
  Strings.Split
    (monitor.mapIndex ing.(networkingv1.Annotations)
       monitor.nginxWhitelistSourceRangeAnnotation) ",".

End ExtraSpec.

(** ** Instances of the interfaces for the further examples *)
Module MoreExamples.
Import networkingv1 site24x7api Examples.

(** A wrapper whose error carries the message of the format. *)
Definition messageOnly (err : error) (format : string) : error := ErrExternal format.

Definition messageOnly_new (err : error) (format : string)
  : messageOnly err format ≠ ErrMonitorNotFound :=
  λ Heq : ErrExternal format = ErrMonitorNotFound,
    match Heq in _ = e return match e with ErrMonitorNotFound => False | _ => True end
    with eq_refl => I end.

#[global] Instance messages : pkgerrors.Library := {|
  pkgerrors.Wrapf := messageOnly;
  pkgerrors.Wrapf_new := messageOnly_new
|}.

(** A Site24x7 account in memory: its monitors, the error every call to
    the monitors endpoint fails with while there is an outage, and the
    addresses of the locations of its location profiles. *)
Record account := {
  monitors : list Monitor;
  outage : option error;
  locationIPs : list string
}.

Definition withMonitors (a : account) (ms : list Monitor) : account :=
  {| monitors := ms; outage := a.(outage); locationIPs := a.(locationIPs) |}.

Definition replaceMonitor (m : Monitor) (ms : list Monitor) : list Monitor :=
  (λ old, if bool_decide (old.(MonitorID) = m.(MonitorID)) then m else old) <$> ms.

#[global] Instance accounts : site24x7Provider.API account := {|
  site24x7Provider.ProfileObject := string;
  site24x7Provider.IPProvider := unit;
  site24x7Provider.Monitors_Create := λ m a,
    match a.(outage) with
    | Some err => (Some err, a)
    | None => (None, withMonitors a (a.(monitors) ++ [m]))
    end;
  site24x7Provider.Monitors_List := λ a,
    match a.(outage) with
    | Some err => (([], Some err), a)
    | None => ((a.(monitors), None), a)
    end;
  site24x7Provider.Monitors_Update := λ m a,
    match a.(outage) with
    | Some err => (Some err, a)
    | None => (None, withMonitors a (replaceMonitor m a.(monitors)))
    end;
  site24x7Provider.Monitors_Delete := λ id a,
    match a.(outage) with
    | Some err => (Some err, a)
    | None =>
        (None,
         withMonitors a (filter (λ old, old.(MonitorID) ≠ id) a.(monitors)))
    end;
  site24x7Provider.LocationProfiles_Get := λ id a, ((Some id, None), a);
  site24x7Provider.NewDefaultProfileIPProvider := λ a, ((Some (), None), a);
  site24x7Provider.GetLocationIPs := λ _ _ a, ((a.(locationIPs), None), a)
|}.

(** A cache that keeps every entry: a map from keys to values. *)
#[global] Instance keepingCache : site24x7Provider.Cache (gmap string (list string)) := {|
  site24x7Provider.cacheGet := λ key cache, cache !! key;
  site24x7Provider.cacheSet := λ key value _ cache, <[key := value]> cache
|}.

(** A monitor of the account with the given identifier, name and
    website. *)
Definition listedMonitor (id name website : string) : Monitor :=
  {| MonitorID := id; DisplayName := name; MonitorType := "URL"; Website := website;
     CheckFrequency := ""; HTTPMethod := ""; AuthUser := ""; AuthPass := "";
     MatchCase := false; UserAgent := ""; CustomHeaders := None; Timeout := 0;
     LocationProfileID := "456"; NotificationProfileID := ""; ThresholdProfileID := "";
     MonitorGroups := []; UserGroupIDs := []; ActionIDs := None;
     UseNameServer := false |}.

Definition otherMonitor : Monitor := listedMonitor "1" "default-other" "http://other".
Definition fooMonitor : Monitor := listedMonitor "123" "kube-system-foo" "http://bar.baz".

Definition accountWith (ms : list Monitor) : account :=
  {| monitors := ms; outage := None; locationIPs := ["1.2.3.4"; "5.6.7.8"] |}.


(** A new provider over an account: no call made, no IP provider yet, an
    empty cache, and the builder that discovers the location profile
    [456]. *)
Definition providerOver (a : account)
  : @site24x7Provider.Provider account (gmap string (list string)) accounts :=
  {| site24x7Provider.client := a;
     site24x7Provider.calls := [];
     site24x7Provider.ipProvider := None;
     site24x7Provider.builder := autoLocationBuilder ["456"];
     site24x7Provider.sourceRangeCache := ∅ |}.

(** A cluster that holds at most one ingress, with its creation
    timestamp. *)
Definition cluster : Type := option (Ingress * Z).

#[global] Instance clusters : controller.Client cluster := {|
  controller.Get := λ req k,
    match k with
    | Some (ing, created) =>
        if bool_decide (ing.(Name) = req.(controller.ReqName)
                        ∧ ing.(Namespace) = req.(controller.ReqNamespace))
        then (controller.Found ing created, k)
        else (controller.NotFound, k)
    | None => (controller.NotFound, k)
    end;
  controller.Update := λ ing k,
    (None, match k with Some (_, created) => Some (ing, created) | None => None end)
|}.

Definition fooRequest : controller.Request :=
  {| controller.ReqName := "foo"; controller.ReqNamespace := "kube-system" |}.

(** The reconciler of the tests with a creation delay of 50 seconds. *)
Definition delayingReconciler : controller.IngressReconciler :=
  {| controller.monitorService := testSvc;
     controller.creationDelay := 50 * 1000000000 |}.

(** Annotations whose enabled annotation parses as true and is not the
    string [true]. *)
Definition enabledByOne : config.Annotations := {[ config.AnnotationEnabled := "1" ]}.

(** An ingress with a TLS entry that names no host. *)
Definition hostlessTLSIngress : Ingress :=
  {| Name := "foo"; Namespace := "kube-system"; Annotations := ∅;
     Spec := {| TLS := [ {| Hosts := [] |} ]; Rules := [ {| Host := "foo.bar.baz" |} ] |} |}.

End MoreExamples.

(** * Properties *)

(** Membership of a call in a log that is written out: the entries built
    by another method are discarded. *)
Ltac in_log Hin :=
  repeat (apply elem_of_cons in Hin as [Hin|Hin]; [try discriminate Hin|]);
  try (by apply elem_of_nil in Hin).

(** ** The source-range merge *)
Section Merge.
Import monitor.

Lemma seen_elem_of (b : list string) (seen0 : gset string) (el : string) :
  el ∈ foldl (λ seen el', {[el']} ∪ seen) seen0 b ↔ el ∈ b ∨ el ∈ seen0.
Proof.
  revert seen0. induction b as [|x b IH]; intros seen0; simpl.
  - rewrite elem_of_nil. tauto.
  - rewrite IH, elem_of_cons, elem_of_union, elem_of_singleton. tauto.
Qed.

Lemma diff_loop (seen : gset string) (a diff0 : list string) :
  foldl (λ diff el, if decide (el ∈ seen) then diff else diff ++ [el]) diff0 a
  = diff0 ++ filter (λ el, el ∉ seen) a.
Proof.
  revert diff0. induction a as [|x a IH]; intros diff0; simpl.
  - by rewrite app_nil_r.
  - rewrite IH, filter_cons. destruct (decide (x ∈ seen)) as [Hin|Hout].
    + by rewrite decide_False by (intros Hn; by apply Hn).
    + by rewrite decide_True, <- app_assoc by done.
Qed.

(** [difference] keeps, in their order and with their repetitions, the
    elements of [a] that do not occur in [b]. *)
Lemma difference_filter (a b : list string) :
  difference a b = filter (λ el, el ∉ b) a.
Proof.
  unfold difference. rewrite diff_loop. simpl.
  apply list_filter_iff. intros el.
  rewrite seen_elem_of, elem_of_empty. tauto.
Qed.

Lemma filter_none {A : Type} (Q : A → Prop) `{∀ x, Decision (Q x)} (l : list A) :
  (∀ x, x ∈ l → ¬ Q x) → filter Q l = [].
Proof.
  induction l as [|x l IH]; intros Hall; [done|].
  rewrite filter_cons, decide_False by (apply Hall; left).
  apply IH. intros y Hy. apply Hall. by right.
Qed.

(** After the missing ranges are appended nothing is missing. *)
Lemma difference_absorbed (W P : list string) :
  difference P (W ++ difference P W) = [].
Proof.
  rewrite !difference_filter. apply filter_none.
  intros x Hx Hout. apply Hout.
  rewrite elem_of_app, list_elem_of_filter.
  destruct (decide (x ∈ W)); tauto.
Qed.

Lemma merge_unfold (W P : list string) :
  mergeProviderSourceRanges W P
  = (W ++ difference P W, negb (bool_decide (difference P W = []))).
Proof.
  unfold mergeProviderSourceRanges.
  destruct (difference P W) as [|x missing]; simpl; [|done].
  by rewrite app_nil_r.
Qed.

(** C1.  For every whitelist sequence [W] and provider range list [P],
    [mergeProviderSourceRanges] returns [W] followed by the elements of [P]
    that do not occur in [W], in the order of [P]; it reports an update
    exactly when something was appended; and merging [P] into the result
    again returns the same sequence and reports no update. *)
Theorem merge_appends_missing_and_is_idempotent (W P : list string) :
  let missing := filter (λ el, el ∉ W) P in
  let merged := (mergeProviderSourceRanges W P).1 in
  let updated := (mergeProviderSourceRanges W P).2 in
  merged = W ++ missing
  ∧ (updated = true ↔ missing ≠ [])
  ∧ mergeProviderSourceRanges merged P = (merged, false).
Proof.
  simpl. rewrite (merge_unfold W P), <- difference_filter. simpl.
  split; [done|]. split.
  - rewrite negb_true_iff, bool_decide_eq_false. tauto.
  - rewrite merge_unfold, difference_absorbed. simpl. by rewrite app_nil_r.
Qed.

End Merge.

(** ** Validation *)
Section Validation.
Import networkingv1 ingress IngressSpec.

(** [containsWildcard] holds exactly of the host names in which the byte
    [*] occurs. *)
Lemma containsWildcard_iff (hostName : string) :
  containsWildcard hostName = true
  ↔ ∃ before after, hostName = before +:+ String "*" after.
Proof.
  unfold containsWildcard.
  induction hostName as [|c rest IH]; cbn [Strings.Contains String.prefix].
  - split; [discriminate|]. intros ([|? ?] & after & Heq); discriminate.
  - destruct (Ascii.ascii_dec "*" c) as [<-|Hne]; cbn [orb].
    + assert (String.prefix EmptyString rest = true) as -> by (by destruct rest).
      split; [|done]. intros _. by exists EmptyString, rest.
    + rewrite IH. split.
      * intros (before & after & ->). by exists (String c before), after.
      * intros ([|c' before] & after & Heq); cbn [String.append] in Heq.
        -- injection Heq as Hc _. by destruct Hne.
        -- injection Heq as _ ->. by exists before, after.
Qed.

Lemma Validate_rules (ing : Ingress) :
  Validate ing = ValidationRules (firstTLSHost ing) (firstRuleHost ing).
Proof.
  destruct ing as [name namespace annotations [tls rules]].
  unfold Validate, ValidationRules, firstTLSHost, firstRuleHost,
    supportsTLS, tlsHost0, ruleHost0, index; simpl.
  destruct tls as [|[[|tlsHost hosts]] tls]; simpl;
    try destruct tlsHost as [|c tlsHost]; simpl;
    try destruct (containsWildcard (String c tlsHost)); simpl;
    destruct rules as [|[ruleHost] rules]; simpl; try done;
    by destruct (containsWildcard ruleHost).
Qed.

(** C4.  Validation applies three checks in order, the first failure
    winning: a configured TLS host (the first host of the first TLS entry,
    when non-empty) with a wildcard fails naming that host; otherwise an
    ingress without rules fails with the no-rules error; otherwise a first
    rule host with a wildcard fails naming that host; otherwise validation
    succeeds.  The outcome is a function of the first TLS host and the
    first rule host alone, and validation returns nothing but this
    outcome. *)
Theorem Validate_three_checks_first_failure_wins (ing : Ingress) :
  let tlsPasses :=
    ∀ host, configuredTLSHost ing = Some host → containsWildcard host = false in
  (∀ host, configuredTLSHost ing = Some host → containsWildcard host = true →
     Validate ing = Err (ErrTLSHostWildcard host))
  ∧ (tlsPasses → ing.(Spec).(Rules) = [] → Validate ing = Err ErrNoRules)
  ∧ (tlsPasses → ∀ host, firstRuleHost ing = Some host →
       containsWildcard host = true → Validate ing = Err (ErrHostWildcard host))
  ∧ (tlsPasses → ∀ host, firstRuleHost ing = Some host →
       containsWildcard host = false → Validate ing = Ok ())
  ∧ Validate ing = ValidationRules (firstTLSHost ing) (firstRuleHost ing).
Proof.
  simpl. rewrite Validate_rules.
  unfold configuredTLSHost, ValidationRules.
  assert (Hrules : ing.(Spec).(Rules) = [] → firstRuleHost ing = None).
  { unfold firstRuleHost. by intros ->. }
  destruct (firstTLSHost ing) as [tlsHost|];
    [destruct (bool_decide (tlsHost = EmptyString)) eqn:Hempty|]; simpl;
    (repeat split;
     [ intros host [= <-] Hwild; by rewrite ?Hwild
     | intros Htls Hnil; rewrite (Hrules Hnil);
       try rewrite (Htls _ eq_refl); done
     | intros Htls host -> Hwild; rewrite Hwild;
       try rewrite (Htls _ eq_refl); done
     | intros Htls host -> Hwild; rewrite Hwild;
       try rewrite (Htls _ eq_refl); done ]).
Qed.

End Validation.

(** ** The URL builder *)
Section URLBuilder.
Import networkingv1 ingress IngressSpec.
Context `{url.Library}.

(** Read without a default, [BoolValue] is true exactly of an annotation
    that is boolean-true. *)
Lemma BoolValue_booleanTrue (a : config.Annotations) (key : string) :
  config.BoolValue a key false = booleanTrue a key.
Proof.
  unfold config.BoolValue, booleanTrue.
  destruct (a !! key) as [value|]; [|done].
  by destruct (strconv.ParseBool value) as [[]|].
Qed.

Lemma supportsTLS_configured (ing : Ingress) :
  supportsTLS ing = bool_decide (is_Some (configuredTLSHost ing)).
Proof.
  destruct ing as [name namespace annotations [tls rules]].
  unfold supportsTLS, configuredTLSHost, firstTLSHost; simpl.
  destruct tls as [|[[|[|c host] hosts]] tls]; simpl; try done.
  all: symmetry; apply bool_decide_eq_false; by intros [? ?].
Qed.

(** A validated ingress has a first rule. *)
Lemma Validate_Ok_rule (ing : Ingress) :
  Validate ing = Ok () → is_Some (firstRuleHost ing).
Proof.
  rewrite Validate_rules. unfold ValidationRules.
  destruct (firstRuleHost ing); [by eauto|].
  destruct (firstTLSHost ing) as [host|]; [|done].
  by destruct (negb (bool_decide (host = EmptyString)) && containsWildcard host).
Qed.

Lemma buildHostURL_schemeAndHost (ing : Ingress) :
  Validate ing = Ok () →
  ∃ scheme host,
    schemeAndHost ing = Some (scheme, host)
    ∧ buildHostURL ing = Ok (scheme +:+ "://" +:+ host).
Proof.
  intros [ruleHost Hrule]%Validate_Ok_rule.
  unfold buildHostURL, schemeAndHost, forceHTTPS.
  rewrite supportsTLS_configured, !BoolValue_booleanTrue, Hrule.
  assert (HruleHost0 : ruleHost0 ing = Ok ruleHost).
  { revert Hrule. unfold firstRuleHost, ruleHost0, index.
    destruct (ing.(Spec).(Rules) !! 0%nat); simpl; congruence. }
  destruct (configuredTLSHost ing) as [tlsHost|] eqn:Htls.
  - rewrite bool_decide_eq_true_2 by eauto.
    assert (tlsHost0 ing = Ok tlsHost) as ->.
    { revert Htls. unfold configuredTLSHost, firstTLSHost, tlsHost0, index.
      destruct (ing.(Spec).(TLS) !! 0%nat) as [tls0|]; simpl; [|done].
      destruct (tls0.(Hosts) !! 0%nat) as [host|]; simpl; [|done].
      case_bool_decide; congruence. }
    by exists "https", tlsHost.
  - rewrite bool_decide_eq_false_2 by (by intros [? ?]).
    rewrite HruleHost0. simpl.
    destruct (booleanTrue _ config.AnnotationForceHTTPS
              || booleanTrue _ nginxForceSSLRedirectAnnotation).
    + by exists "https", ruleHost.
    + by exists "http", ruleHost.
Qed.

(** C5.  For every validated ingress the monitored URL is parsed from
    [scheme://host], with the scheme and host chosen in this order: https
    and the first TLS host when TLS is configured with a non-empty first
    host; else https and the first rule host when the force-HTTPS
    annotation or the force-SSL-redirect annotation is boolean-true; else
    http and the first rule host.  When the path-override annotation is
    present its value is assigned to the path of the parsed URL, and the
    URL is printed. *)
Theorem BuildMonitorURL_scheme_host_priority_and_path_override (ing : Ingress) :
  Validate ing = Ok () →
  ∃ scheme host,
    schemeAndHost ing = Some (scheme, host)
    ∧ BuildMonitorURL ing =
        (u ← url.Parse (scheme +:+ "://" +:+ host);
         Ok (url.String
               match ing.(Annotations) !! config.AnnotationPathOverride with
               | Some path => url.withPath u path
               | None => u
               end)).
Proof.
  intros (scheme & host & Hspec & Hbuild)%buildHostURL_schemeAndHost.
  exists scheme, host. split; [done|].
  unfold BuildMonitorURL. by rewrite Hbuild.
Qed.

End URLBuilder.

(** ** The monitor service *)
Section ServiceProperties.
Import networkingv1 monitor provider.
Context `{url.Library} {P : Type} `{provider.Interface P}.

(** C2.  An ingress that fails validation makes [EnsureMonitor] return
    without error and without a provider call, and makes
    [GetProviderIPSourceRanges] return the empty result without error.  For
    an ingress that passes validation and whose monitor model is built, the
    lookup by name decides: on [ErrMonitorNotFound] the monitor is created;
    on a found monitor it is updated; any other lookup error is returned as
    it is, and neither create nor update is called. *)
Theorem EnsureMonitor_skips_invalid_and_decides_by_lookup
    (s : service) (ing : Ingress) (p : P) (log : list Call) :
  (∀ e, ingress.Validate ing = Err e →
     EnsureMonitor s ing (p, log) = (Ok (), (p, log))
     ∧ GetProviderIPSourceRanges s ing (p, log) = (Ok [], (p, log)))
  ∧ (ingress.Validate ing = Ok () →
     ∀ newMonitor, buildMonitorModel s ing = Ok newMonitor →
     let name := newMonitor.(models.Name) in
     ∀ oldMonitor err p1, Get name p = ((oldMonitor, err), p1) →
       (err = Some ErrMonitorNotFound →
          EnsureMonitor s ing (p, log) =
            (errorResult (Create newMonitor p1).1,
             ((Create newMonitor p1).2,
              log ++ [CallGet name; CallCreate newMonitor])))
       ∧ (∀ old, oldMonitor = Some old → err = None →
            let updated := models.withID newMonitor old.(models.ID) in
            EnsureMonitor s ing (p, log) =
              (errorResult (Update updated p1).1,
               ((Update updated p1).2,
                log ++ [CallGet name; CallUpdate updated])))
       ∧ (∀ e, err = Some e → e ≠ ErrMonitorNotFound →
            EnsureMonitor s ing (p, log) = (Err e, (p1, log ++ [CallGet name])))).
Proof.
  split.
  - intros e Hinvalid. unfold EnsureMonitor, GetProviderIPSourceRanges.
    by rewrite Hinvalid.
  - intros Hvalid newMonitor Hmodel name oldMonitor err p1 Hget.
    unfold EnsureMonitor. rewrite Hvalid, Hmodel.
    unfold bind, providerGet. fold name. rewrite Hget.
    split; [|split].
    + intros ->. unfold createMonitor, bind, providerCreate, ret.
      destruct (Create newMonitor p1) as [created p2]; simpl.
      by rewrite <- app_assoc.
    + intros old -> ->. simpl.
      unfold updateMonitor, bind, providerUpdate, ret.
      destruct (Update _ p1) as [updated p2]; simpl.
      by rewrite <- app_assoc.
    + intros e -> Hother. by destruct e.
Qed.

(** C3.  When the lookup finds a monitor, [EnsureMonitor] calls update
    once, with the new monitor carrying the identifier of the monitor
    found; and every update call that [EnsureMonitor] makes is of this
    form, so the identifier passed to the provider is always the one the
    provider returned. *)
Theorem EnsureMonitor_update_carries_found_id
    (s : service) (ing : Ingress) (p : P) :
  let calls := (EnsureMonitor s ing (p, [])).2.2 in
  (ingress.Validate ing = Ok () →
   ∀ newMonitor old p1,
     buildMonitorModel s ing = Ok newMonitor →
     Get newMonitor.(models.Name) p = ((Some old, None), p1) →
     ∃ updated,
       calls = [CallGet newMonitor.(models.Name); CallUpdate updated]
       ∧ updated.(models.ID) = old.(models.ID)
       ∧ updated.(models.Name) = newMonitor.(models.Name)
       ∧ updated.(models.URL) = newMonitor.(models.URL)
       ∧ updated.(models.Annotations) = newMonitor.(models.Annotations))
  ∧ (∀ updated, CallUpdate updated ∈ calls →
     ∃ newMonitor old p1,
       buildMonitorModel s ing = Ok newMonitor
       ∧ Get newMonitor.(models.Name) p = ((Some old, None), p1)
       ∧ updated = models.withID newMonitor old.(models.ID)
       ∧ updated.(models.ID) = old.(models.ID)).
Proof.
  simpl. split.
  - intros Hvalid newMonitor old p1 Hmodel Hget.
    exists (models.withID newMonitor old.(models.ID)).
    unfold EnsureMonitor. rewrite Hvalid, Hmodel.
    unfold bind, providerGet. rewrite Hget. simpl.
    unfold updateMonitor, bind, providerUpdate, ret.
    by destruct (Update _ p1) as [updated p2].
  - intros updated. unfold EnsureMonitor.
    destruct (ingress.Validate ing) as [[]|e|]; simpl;
      [|by intros ?%elem_of_nil..].
    destruct (buildMonitorModel s ing) as [newMonitor|e|]; simpl;
      [|by intros ?%elem_of_nil..].
    unfold bind, providerGet.
    destruct (Get newMonitor.(models.Name) p) as [[oldMonitor err] p1] eqn:Hget.
    destruct err as [e|].
    + assert (Hno : ∀ w, CallUpdate updated ∈ w →
                w = [CallGet newMonitor.(models.Name)]
                ∨ (∃ m, w = [CallGet newMonitor.(models.Name); CallCreate m]) →
                False).
      { intros w Hin [->|[m ->]]; in_log Hin. }
      destruct e; simpl; unfold createMonitor, bind, providerCreate, ret;
        try destruct (Create newMonitor p1) as [created p2]; simpl;
        intros Hin; exfalso; eapply Hno; eauto.
    + destruct oldMonitor as [old|]; simpl.
      * unfold updateMonitor, bind, providerUpdate, ret.
        destruct (Update _ p1) as [res p2]; simpl.
        intros Hin. exists newMonitor, old, p1.
        in_log Hin. by injection Hin as ->.
      * intros Hin. in_log Hin.
Qed.

End ServiceProperties.

(** ** Deletion *)
Section Deletion.
Import networkingv1 monitor provider.
Context `{url.Library} {P : Type} `{provider.Interface P}.

(** C6.  [DeleteMonitor] derives the monitor name from the namespace and
    name alone: it does on any ingress what it does on the ingress stripped
    of its rules, TLS entries and annotations, so it neither validates nor
    needs rules.  With the name derived: in no-delete mode it returns
    without error and without a provider call; otherwise it calls the
    provider's delete once, returns without error when that reports
    [ErrMonitorNotFound] or no error, and returns every other error as it
    is. *)
Theorem DeleteMonitor_by_name_noop_or_delete
    (s : service) (ing : Ingress) (p : P) (log : list Call) :
  DeleteMonitor s ing (p, log) = DeleteMonitor s (IngressSpec.metadataOnly ing) (p, log)
  ∧ Namer_Name s.(namer) ing = s.(namer).(render) ing.(Namespace) ing.(Name)
  ∧ (∀ name, Namer_Name s.(namer) ing = Ok name →
     (s.(options).(config.NoDelete) = true →
        DeleteMonitor s ing (p, log) = (Ok (), (p, log)))
     ∧ (s.(options).(config.NoDelete) = false →
        ∀ err p1, Delete name p = (err, p1) →
          (DeleteMonitor s ing (p, log)).2 = (p1, log ++ [CallDelete name])
          ∧ (err = None ∨ err = Some ErrMonitorNotFound →
               (DeleteMonitor s ing (p, log)).1 = Ok ())
          ∧ (∀ e, err = Some e → e ≠ ErrMonitorNotFound →
               (DeleteMonitor s ing (p, log)).1 = Err e))).
Proof.
  split; [done|]. split; [done|].
  intros name Hname. unfold DeleteMonitor. rewrite Hname. split.
  - by intros ->.
  - intros -> err p1 Hdelete.
    unfold deleteMonitor, bind, providerDelete, ret. rewrite Hdelete.
    split; [by destruct err as [[]|]|]. split.
    + by intros [-> | ->].
    + intros e -> Hother. by destruct e.
Qed.

End Deletion.

(** ** The whitelist annotation *)
Section Annotation.
Import networkingv1 monitor provider.
Context `{url.Library} {P : Type} `{provider.Interface P}.

(** [AnnotateIngress] returns the ingress it was given unless it reports an
    update, and then it has assigned one value to the whitelist key. *)
Lemma AnnotateIngress_cases (s : service) (ing : Ingress) (w : World) :
  let '((ing', r), w') := AnnotateIngress s ing w in
  (r ≠ Ok true ∧ ing' = ing)
  ∨ (r = Ok true
     ∧ shouldPatchSourceRangeWhitelist ing = true
     ∧ ∃ value, ing' = setAnnotation ing nginxWhitelistSourceRangeAnnotation value).
Proof.
  unfold AnnotateIngress.
  destruct (shouldPatchSourceRangeWhitelist ing) eqn:Hpatch; simpl; [|by left].
  unfold bind. destruct (GetProviderIPSourceRanges s ing w) as [[ranges|e|] w1];
    simpl; [|by left..].
  case_bool_decide; simpl; [by left|].
  destruct (mergeProviderSourceRanges _ ranges) as [merged []]; simpl.
  - right. eauto.
  - by left.
Qed.

Lemma shouldPatch_whitelist_present (ing : Ingress) :
  shouldPatchSourceRangeWhitelist ing = true →
  ∃ value, ing.(Annotations) !! nginxWhitelistSourceRangeAnnotation = Some value
           ∧ value ≠ EmptyString.
Proof.
  unfold shouldPatchSourceRangeWhitelist, mapIndex.
  destruct (negb _); [done|].
  destruct (ing.(Annotations) !! nginxWhitelistSourceRangeAnnotation) as [value|];
    simpl; [|done].
  intros Hlen. exists value. split; [done|]. by intros ->.
Qed.

(** C10.  [AnnotateIngress] changes the ingress only in an invocation that
    reports an update, and then only the value of the whitelist annotation,
    which was present and non-empty before; an invocation that reports no
    update, an error or a panic leaves the ingress as it was.  No update is
    reported, and nothing is changed, when the enabled annotation is not
    boolean-true, when the whitelist annotation is absent or empty, when the
    range lookup fails, when the provider returns no ranges, and when every
    provider range is already in the whitelist.  A whitelist annotation that
    is absent stays absent. *)
Theorem AnnotateIngress_frame (s : service) (ing : Ingress) (w : World) :
  let ing' := (AnnotateIngress s ing w).1.1 in
  let r := (AnnotateIngress s ing w).1.2 in
  let key := nginxWhitelistSourceRangeAnnotation in
  (r ≠ Ok true → ing' = ing)
  ∧ (r = Ok true →
     (∃ value, ing' = setAnnotation ing key value)
     ∧ (∀ k, k ≠ key → ing'.(Annotations) !! k = ing.(Annotations) !! k)
     ∧ (∃ old, ing.(Annotations) !! key = Some old ∧ old ≠ EmptyString)
     ∧ ing'.(Name) = ing.(Name) ∧ ing'.(Namespace) = ing.(Namespace)
     ∧ ing'.(Spec) = ing.(Spec))
  ∧ (ing.(Annotations) !! key = None → ing'.(Annotations) !! key = None)
  ∧ (config.BoolValue ing.(Annotations) config.AnnotationEnabled false = false →
     AnnotateIngress s ing w = ((ing, Ok false), w))
  ∧ (mapIndex ing.(Annotations) key = EmptyString →
     AnnotateIngress s ing w = ((ing, Ok false), w))
  ∧ (shouldPatchSourceRangeWhitelist ing = true →
     ∀ w1,
       (∀ e, GetProviderIPSourceRanges s ing w = (Err e, w1) →
          AnnotateIngress s ing w = ((ing, Err e), w1))
       ∧ (GetProviderIPSourceRanges s ing w = (Ok [], w1) →
          AnnotateIngress s ing w = ((ing, Ok false), w1))
       ∧ (∀ ranges, GetProviderIPSourceRanges s ing w = (Ok ranges, w1) →
          (∀ range, range ∈ ranges →
             range ∈ Strings.Split (mapIndex ing.(Annotations) key) ",") →
          AnnotateIngress s ing w = ((ing, Ok false), w1))).
Proof.
  simpl. pose proof (AnnotateIngress_cases s ing w) as Hcases.
  destruct (AnnotateIngress s ing w) as [[ing' r] w'] eqn:Hrun; simpl.
  split; [|split; [|split; [|split; [|split]]]].
  - intros Hr. by destruct Hcases as [[_ ->]|[? _]].
  - intros Hr. destruct Hcases as [[? _]|(_ & Hpatch & value & ->)]; [done|].
    split; [by eauto|]. split; [|split; [|done]].
    + intros k Hk. simpl. by rewrite lookup_insert_ne.
    + by apply shouldPatch_whitelist_present.
  - intros Habsent. destruct Hcases as [[_ ->]|(_ & Hpatch & _)]; [done|].
    apply shouldPatch_whitelist_present in Hpatch as (value & Hvalue & _).
    congruence.
  - intros Hdisabled.
    assert (Hno : shouldPatchSourceRangeWhitelist ing = false).
    { unfold shouldPatchSourceRangeWhitelist. by rewrite Hdisabled. }
    revert Hrun. unfold AnnotateIngress, ret. rewrite Hno. simpl.
    intros ?; by simplify_eq.
  - intros Hempty.
    assert (Hno : shouldPatchSourceRangeWhitelist ing = false).
    { unfold shouldPatchSourceRangeWhitelist. rewrite Hempty. by destruct (negb _). }
    revert Hrun. unfold AnnotateIngress, ret. rewrite Hno. simpl.
    intros ?; by simplify_eq.
  - intros Hpatch w1. unfold AnnotateIngress, bind, ret in Hrun.
    rewrite Hpatch in Hrun. simpl in Hrun. split; [|split].
    + intros e Hget. rewrite Hget in Hrun. by simplify_eq.
    + intros Hget. rewrite Hget in Hrun. by simplify_eq.
    + intros ranges Hget Hall. rewrite Hget in Hrun. revert Hrun.
      case_bool_decide; simpl; [intros ?; by simplify_eq|].
      rewrite merge_unfold, difference_filter.
      rewrite filter_none by (intros range Hin Hout; apply Hout; by apply Hall).
      simpl. intros ?; by simplify_eq.
Qed.

End Annotation.

(** ** The finalizers *)
Section Finalizers.
Import site24x7api site24x7 BuilderSpec.

Lemma finalizers_by_kind (b : builder) : finalizers b = finalizerOf b <$> kinds.
Proof. done. Qed.

(** What the finalizer of a kind does, uniformly in the kind: nothing when
    the field is set or the flag is off; otherwise it lists the candidates
    and assigns the first, or fails when there is none. *)
Lemma finalizerOf_unfold (b : builder) (k : ProfileKind) (m : Monitor) :
  finalizerOf b k m =
    if fieldUnset m k && autoDiscovery b.(defaults) k then
      match candidates b.(client) k with
      | Ok (id :: _) => Ok (setField m k id)
      | Ok [] => Err (ErrNoProfilesConfigured k)
      | Err e => Err e
      | Panic => Panic
      end
    else Ok m.
Proof.
  destruct k; simpl;
    unfold finalizeLocationProfile, finalizeNotificationProfile,
      finalizeThresholdProfile, finalizeMonitorGroup, finalizeUserGroup.
  - destruct (LocationProfileID m) as [|c id]; simpl;
      [destruct (config.AutoLocationProfile _); simpl|done]; [|done].
    by destruct (LocationProfiles_List _) as [[|p ps]|e|].
  - destruct (NotificationProfileID m) as [|c id]; simpl;
      [destruct (config.AutoNotificationProfile _); simpl|done]; [|done].
    by destruct (NotificationProfiles_List _) as [[|p ps]|e|].
  - destruct (ThresholdProfileID m) as [|c id]; simpl;
      [destruct (config.AutoThresholdProfile _); simpl|done]; [|done].
    by destruct (ThresholdProfiles_List _) as [[|p ps]|e|].
  - destruct (MonitorGroups m) as [|g gs]; simpl;
      [destruct (config.AutoMonitorGroup _); simpl|done]; [|done].
    by destruct (MonitorGroups_List _) as [[|p ps]|e|].
  - destruct (UserGroupIDs m) as [|g gs]; simpl;
      [destruct (config.AutoUserGroup _); simpl|done]; [|done].
    by destruct (UserGroups_List _) as [[|p ps]|e|].
Qed.

Lemma sameOtherFields_refl (m : Monitor) : sameOtherFields m m.
Proof. by repeat split. Qed.

Lemma sameOtherFields_trans (m1 m2 m3 : Monitor) :
  sameOtherFields m1 m2 → sameOtherFields m2 m3 → sameOtherFields m1 m3.
Proof. unfold sameOtherFields. intros H12 H23. repeat split; by etrans; [apply H23|apply H12]. Qed.

Lemma sameField_refl (k : ProfileKind) (m : Monitor) : sameField k m m.
Proof. by destruct k. Qed.

Lemma sameField_trans (k : ProfileKind) (m1 m2 m3 : Monitor) :
  sameField k m1 m2 → sameField k m2 m3 → sameField k m1 m3.
Proof. destruct k; simpl; congruence. Qed.

Lemma sameField_unset (k : ProfileKind) (m m' : Monitor) :
  sameField k m m' → fieldUnset m' k = fieldUnset m k.
Proof. destruct k; simpl; by intros ->. Qed.

Lemma sameField_holds (k : ProfileKind) (m m' : Monitor) (id : string) :
  sameField k m m' → fieldHolds m k id → fieldHolds m' k id.
Proof. destruct k; simpl; congruence. Qed.

Lemma setField_other_fields (m : Monitor) (k : ProfileKind) (id : string) :
  sameOtherFields m (setField m k id).
Proof. destruct k; by repeat split. Qed.

Lemma setField_other_kind (m : Monitor) (k k' : ProfileKind) (id : string) :
  k' ≠ k → sameField k' m (setField m k id).
Proof. by destruct k, k'. Qed.

Lemma setField_holds (m : Monitor) (k : ProfileKind) (id : string) :
  fieldHolds (setField m k id) k id.
Proof. by destruct k. Qed.

(** The loop of [finalizeMonitor] composes: the finalizers after a prefix
    run on the monitor the prefix leaves, if it leaves one. *)
Lemma runFinalizers_app (fs1 fs2 : list finalizer) (m : Monitor) :
  runFinalizers (fs1 ++ fs2) m = (m1 ← runFinalizers fs1 m; runFinalizers fs2 m1).
Proof.
  revert m. induction fs1 as [|f fs1 IH]; intros m; simpl; [done|].
  by destruct (f m) as [m1|e|].
Qed.

(** A run of the finalizers of distinct kinds that returns a monitor has
    left alone the fields no finalizer assigns and the fields of the other
    kinds, and for each of its kinds has either left the field alone (set,
    or flag off) or filled it with the first candidate. *)
Lemma runFinalizers_kinds (b : builder) (ks : list ProfileKind) (m m' : Monitor) :
  NoDup ks →
  runFinalizers (finalizerOf b <$> ks) m = Ok m' →
  sameOtherFields m m'
  ∧ (∀ k, k ∉ ks → sameField k m m')
  ∧ (∀ k, k ∈ ks →
       if fieldUnset m k && autoDiscovery b.(defaults) k
       then ∃ id rest, candidates b.(client) k = Ok (id :: rest) ∧ fieldHolds m' k id
       else sameField k m m').
Proof.
  intros Hnodup. revert m.
  induction Hnodup as [|k0 ks Hk0 Hnodup IH]; intros m; simpl.
  - intros [= <-]. split; [apply sameOtherFields_refl|].
    split; [intros; apply sameField_refl|]. by intros k ?%elem_of_nil.
  - rewrite finalizerOf_unfold.
    destruct (fieldUnset m k0 && autoDiscovery (defaults b) k0) eqn:Htrigger.
    + destruct (candidates (client b) k0) as [[|id rest]|e|] eqn:Hcand; try done.
      intros (Hother & Hout & Hin)%IH.
      split; [|split].
      * eapply sameOtherFields_trans; [apply setField_other_fields|done].
      * intros k [Hne Hk]%not_elem_of_cons.
        eapply sameField_trans; [by apply setField_other_kind|by apply Hout].
      * intros k [->|Hk]%elem_of_cons.
        -- rewrite Htrigger. exists id, rest. split; [done|].
           eapply sameField_holds; [by apply Hout|apply setField_holds].
        -- assert (Hne : k ≠ k0) by (by intros ->).
           specialize (Hin k Hk).
           rewrite (sameField_unset k m (setField m k0 id)) in Hin
             by (by apply setField_other_kind).
           destruct (fieldUnset m k && autoDiscovery (defaults b) k); [done|].
           eapply sameField_trans; [by apply setField_other_kind|done].
    + intros (Hother & Hout & Hin)%IH.
      split; [done|]. split.
      * intros k [Hne Hk]%not_elem_of_cons. by apply Hout.
      * intros k [->|Hk]%elem_of_cons; [|by apply Hin].
        rewrite Htrigger. by apply Hout.
Qed.

Lemma kinds_NoDup : NoDup kinds.
Proof.
  unfold kinds.
  repeat (apply NoDup_cons; split;
          [rewrite ?elem_of_cons, elem_of_nil; intuition discriminate|]).
  apply NoDup_nil_2.
Qed.

Lemma finalizeMonitor_Ok (b : builder) (m m' : Monitor) :
  finalizeMonitor b m = Ok m' →
  sameOtherFields m m'
  ∧ (∀ k,
       if fieldUnset m k && autoDiscovery b.(defaults) k
       then ∃ id rest, candidates b.(client) k = Ok (id :: rest) ∧ fieldHolds m' k id
       else sameField k m m').
Proof.
  unfold finalizeMonitor. rewrite finalizers_by_kind.
  intros (Hother & _ & Hin)%runFinalizers_kinds; [|apply kinds_NoDup].
  split; [done|]. intros k. apply Hin. unfold kinds.
  rewrite !elem_of_cons. destruct k; tauto.
Qed.

End Finalizers.

(** ** Configuration resolution *)
Section Resolution.
Import site24x7api site24x7 BuilderSpec.
Context `{json.Library}.

Lemma Split_nonempty (s : string) (sep : ascii) : Strings.Split s sep ≠ [].
Proof.
  destruct s as [|c s]; simpl; [done|].
  destruct (Ascii.eqb c sep); [done|]. by destruct (Strings.Split s sep).
Qed.

(** [FromModel] returns a monitor only if every field was resolved and
    every finalizer succeeded. *)
Lemma FromModel_Ok (b : builder) (model : models.Monitor) (cfg : Monitor) :
  FromModel b model = Ok cfg →
  ∃ direct, resolveFields b model = Ok direct ∧ finalizeMonitor b direct = Ok cfg.
Proof.
  unfold FromModel. destruct (resolveFields b model) as [direct|e|]; simpl; [|done..].
  intros Hfinal. by exists direct.
Qed.

(** C7, as amended.  An annotation override that is present decides the
    value of its field ahead of the operator default: its literal value for
    a string field, its comma-separated parts for a list field, its parsed
    value for a bool or int field whose annotation parses, its decoded list
    for a JSON field whose annotation decodes to a non-null list, and its
    literal value for a profile identifier when that value is not empty.  A
    finalizer never overwrites a profile or group field that an override or
    a default has set to a non-empty value. *)
Theorem FromModel_override_precedence
    (b : builder) (model : models.Monitor) (cfg : Monitor) :
  FromModel b model = Ok cfg →
  let anno := model.(models.Annotations) in
  (∀ v, anno !! config.AnnotationSite24x7CheckFrequency = Some v →
     cfg.(CheckFrequency) = v)
  ∧ (∀ v, anno !! config.AnnotationSite24x7HTTPMethod = Some v → cfg.(HTTPMethod) = v)
  ∧ (∀ v, anno !! config.AnnotationSite24x7AuthUser = Some v → cfg.(AuthUser) = v)
  ∧ (∀ v, anno !! config.AnnotationSite24x7AuthPass = Some v → cfg.(AuthPass) = v)
  ∧ (∀ v, anno !! config.AnnotationSite24x7UserAgent = Some v → cfg.(UserAgent) = v)
  ∧ (∀ v flag, anno !! config.AnnotationSite24x7MatchCase = Some v →
       strconv.ParseBool v = Some flag → cfg.(MatchCase) = flag)
  ∧ (∀ v flag, anno !! config.AnnotationSite24x7UseNameServer = Some v →
       strconv.ParseBool v = Some flag → cfg.(UseNameServer) = flag)
  ∧ (∀ v seconds, anno !! config.AnnotationSite24x7Timeout = Some v →
       strconv.Atoi v = Some seconds → cfg.(Timeout) = seconds)
  ∧ (∀ v, anno !! config.AnnotationSite24x7UserGroupIDs = Some v →
       cfg.(UserGroupIDs) = Strings.Split v ",")
  ∧ (∀ v, anno !! config.AnnotationSite24x7MonitorGroupIDs = Some v →
       cfg.(MonitorGroups) = Strings.Split v ",")
  ∧ (∀ v, anno !! config.AnnotationSite24x7LocationProfileID = Some v →
       v ≠ EmptyString → cfg.(LocationProfileID) = v)
  ∧ (∀ v, anno !! config.AnnotationSite24x7NotificationProfileID = Some v →
       v ≠ EmptyString → cfg.(NotificationProfileID) = v)
  ∧ (∀ v, anno !! config.AnnotationSite24x7ThresholdProfileID = Some v →
       v ≠ EmptyString → cfg.(ThresholdProfileID) = v)
  ∧ (∀ v headers, anno !! config.AnnotationSite24x7CustomHeaders = Some v →
       json.UnmarshalHeaders v = inr (Some headers) →
       cfg.(CustomHeaders) = Some headers)
  ∧ (∀ v actions, anno !! config.AnnotationSite24x7Actions = Some v →
       json.UnmarshalActionRefs v = inr (Some actions) →
       cfg.(ActionIDs) = Some actions)
  ∧ (∀ direct, resolveFields b model = Ok direct →
     ∀ k, fieldUnset direct k = false → sameField k direct cfg).
Proof.
  intros (direct & Hdirect & (Hother & Hkinds)%finalizeMonitor_Ok)%FromModel_Ok.
  destruct Hother as (_ & _ & _ & _ & Hfreq & Hmethod & Huser & Hpass & Hcase
                      & Hagent & Hheaders & Htimeout & Hactions & Hns).
  assert (Hset : ∀ k, fieldUnset direct k = false → sameField k direct cfg).
  { intros k Hk. specialize (Hkinds k). by rewrite Hk in Hkinds. }
  pose proof (Hset LocationProfileKind) as Hloc.
  pose proof (Hset NotificationProfileKind) as Hnot.
  pose proof (Hset ThresholdProfileKind) as Hthr.
  pose proof (Hset MonitorGroupKind) as Hmg.
  pose proof (Hset UserGroupKind) as Hug.
  clear Hkinds. revert Hdirect Hset. unfold resolveFields, config.ParseJSON.
  destruct (model.(models.Annotations) !! config.AnnotationSite24x7CustomHeaders)
    as [rawHeaders|] eqn:HrawHeaders;
    [destruct (json.UnmarshalHeaders rawHeaders) as [?|decodedHeaders] eqn:Hdecoded;
     [done|]|];
    simpl;
    (destruct (model.(models.Annotations) !! config.AnnotationSite24x7Actions)
       as [rawActions|] eqn:HrawActions;
     [destruct (json.UnmarshalActionRefs rawActions) as [?|decodedActions] eqn:Hdecoded';
      [done|]|]);
    simpl; intros [= <-] Hset; simpl in *;
    unfold config.StringValue, config.BoolValue, config.IntValue,
      config.StringSliceValue in *.
  all: repeat split.
  all: try (intros v Hv; rewrite Hv in *; congruence).
  all: try (intros v x Hv Hx; rewrite Hv, ?Hx in *; congruence).
  all: try (intros v Hv; rewrite Hv in *;
            first [ apply Hug | apply Hmg ];
            apply bool_decide_eq_false, Split_nonempty).
  all: try (intros v Hv Hne; rewrite Hv in *;
            first [ apply Hloc | apply Hnot | apply Hthr ];
            by apply bool_decide_eq_false).
  all: try (intros v x [= <-] Hx; rewrite Hx in *; simplify_eq; congruence).
  all: try (intros direct [= <-]; apply Hset).
Qed.

(** C9.  A custom-headers or actions annotation that is present but is
    not valid JSON makes the resolution fail with the error that names the
    annotation key and its raw value, and no monitor is returned (when both
    are malformed the error is that of the custom headers, which are decoded
    first).  An absent annotation leaves the field to the default list.  The
    default never stands in for a malformed value: where a monitor is
    returned, every JSON annotation that is present was decoded. *)
Theorem FromModel_malformed_json_fails_absent_takes_default
    (b : builder) (model : models.Monitor) :
  let anno := model.(models.Annotations) in
  let headersKey := config.AnnotationSite24x7CustomHeaders in
  let actionsKey := config.AnnotationSite24x7Actions in
  (∀ raw cause, anno !! headersKey = Some raw → json.UnmarshalHeaders raw = inl cause →
     FromModel b model = Err (ErrInvalidAnnotationJSON headersKey raw cause))
  ∧ (∀ raw cause, anno !! actionsKey = Some raw →
       json.UnmarshalActionRefs raw = inl cause →
       FromModel b model = Err (ErrInvalidAnnotationJSON actionsKey raw cause)
       ∨ ∃ raw' cause', anno !! headersKey = Some raw'
           ∧ json.UnmarshalHeaders raw' = inl cause'
           ∧ FromModel b model = Err (ErrInvalidAnnotationJSON headersKey raw' cause'))
  ∧ (∀ cfg, FromModel b model = Ok cfg →
       (anno !! headersKey = None →
          cfg.(CustomHeaders) = b.(defaults).(config.CustomHeaders))
       ∧ (anno !! actionsKey = None →
          cfg.(ActionIDs) = b.(defaults).(config.Actions))
       ∧ (∀ raw, anno !! headersKey = Some raw →
          ∃ decoded, json.UnmarshalHeaders raw = inr decoded)
       ∧ (∀ raw, anno !! actionsKey = Some raw →
          ∃ decoded, json.UnmarshalActionRefs raw = inr decoded)).
Proof.
  simpl. split; [|split].
  - intros raw cause Hraw Hcause.
    unfold FromModel, resolveFields, config.ParseJSON. by rewrite Hraw, Hcause.
  - intros raw cause Hraw Hcause.
    unfold FromModel, resolveFields, config.ParseJSON. rewrite Hraw, Hcause.
    destruct (model.(models.Annotations) !! config.AnnotationSite24x7CustomHeaders)
      as [raw'|]; [|by left].
    destruct (json.UnmarshalHeaders raw') as [cause'|decoded] eqn:Hdecoded.
    + right. by exists raw', cause'.
    + by left.
  - intros cfg (direct & Hdirect & (Hother & _)%finalizeMonitor_Ok)%FromModel_Ok.
    destruct Hother as (_ & _ & _ & _ & _ & _ & _ & _ & _ & _ & -> & _ & -> & _).
    revert Hdirect. unfold resolveFields, config.ParseJSON.
    destruct (model.(models.Annotations) !! config.AnnotationSite24x7CustomHeaders)
      as [rawHeaders|];
      [destruct (json.UnmarshalHeaders rawHeaders) as [?|decodedHeaders] eqn:Hdecoded;
       [done|]|];
      simpl;
      (destruct (model.(models.Annotations) !! config.AnnotationSite24x7Actions)
         as [rawActions|];
       [destruct (json.UnmarshalActionRefs rawActions) as [?|decodedActions] eqn:Hdecoded';
        [done|]|]);
      simpl; intros [= <-]; simpl.
    all: repeat split; try done.
    all: intros raw [= <-]; eauto.
Qed.

(** C8.  Let auto-discovery be enabled for a kind whose field the override
    and the default left unset.  If the resolution returns a monitor, the
    provider listed at least one candidate of the kind and the field holds
    the identifier of the first.  The finalizer of the kind, reached with
    the field still unset, assigns the first candidate, or fails with the
    no-profiles error of the kind if the provider lists none.  If the
    provider lists none, the resolution returns no monitor, and its error is
    that no-profiles error whenever the finalizers before have succeeded.
    In general the first finalizer that fails ends the resolution with its
    error, and no monitor is returned. *)
Theorem finalizers_fill_gap_with_first_candidate_or_abort
    (b : builder) (model : models.Monitor) (direct : Monitor) (k : ProfileKind) :
  resolveFields b model = Ok direct →
  autoDiscovery b.(defaults) k = true →
  fieldUnset direct k = true →
  (∀ cfg, FromModel b model = Ok cfg →
     ∃ id rest, candidates b.(client) k = Ok (id :: rest) ∧ fieldHolds cfg k id)
  ∧ (∀ reached, runFinalizers (finalizersBefore b k) direct = Ok reached →
       fieldUnset reached k = true
       ∧ (∀ id rest, candidates b.(client) k = Ok (id :: rest) →
            finalizerOf b k reached = Ok (setField reached k id))
       ∧ (candidates b.(client) k = Ok [] →
            finalizerOf b k reached = Err (ErrNoProfilesConfigured k)
            ∧ FromModel b model = Err (ErrNoProfilesConfigured k)))
  ∧ (candidates b.(client) k = Ok [] → ∀ cfg, FromModel b model ≠ Ok cfg)
  ∧ (∀ before f after reached e,
       finalizers b = before ++ f :: after →
       runFinalizers before direct = Ok reached →
       f reached = Err e →
       FromModel b model = Err e).
Proof.
  intros Hdirect Hauto Hunset.
  assert (Hfrom : FromModel b model = finalizeMonitor b direct).
  { unfold FromModel. by rewrite Hdirect. }
  assert (Hfilled : ∀ cfg, FromModel b model = Ok cfg →
            ∃ id rest, candidates b.(client) k = Ok (id :: rest) ∧ fieldHolds cfg k id).
  { intros cfg. rewrite Hfrom. intros (_ & Hkinds)%finalizeMonitor_Ok.
    specialize (Hkinds k). by rewrite Hunset, Hauto in Hkinds. }
  split; [done|]. split; [|split].
  - intros reached Hreached.
    assert (Hsplit : ∃ ks ks', kinds = ks ++ k :: ks'
                       ∧ finalizersBefore b k = finalizerOf b <$> ks).
    { destruct k;
        [ by exists [], (drop 1 kinds) | by exists (take 1 kinds), (drop 2 kinds)
        | by exists (take 2 kinds), (drop 3 kinds)
        | by exists (take 3 kinds), (drop 4 kinds)
        | by exists (take 4 kinds), [] ]. }
    destruct Hsplit as (ks & ks' & Hkinds & Hbefore).
    pose proof kinds_NoDup as Hnodup. rewrite Hkinds in Hnodup.
    apply NoDup_app in Hnodup as (Hnodup & Hdisjoint & _).
    rewrite Hbefore in Hreached. pose proof Hreached as Hprefix.
    apply runFinalizers_kinds in Hreached as (_ & Hout & _); [|done].
    assert (Hstill : fieldUnset reached k = true).
    { rewrite (sameField_unset k direct reached); [done|].
      apply Hout. intros Hin. apply (Hdisjoint k Hin). by left. }
    split; [done|]. split.
    + intros id rest Hcand. by rewrite finalizerOf_unfold, Hstill, Hauto, Hcand.
    + intros Hcand.
      assert (Hfail : finalizerOf b k reached = Err (ErrNoProfilesConfigured k)).
      { by rewrite finalizerOf_unfold, Hstill, Hauto, Hcand. }
      split; [done|].
      rewrite Hfrom. unfold finalizeMonitor.
      rewrite finalizers_by_kind, Hkinds, fmap_app, runFinalizers_app.
      rewrite Hprefix. simpl. by rewrite Hfail.
  - intros Hcand cfg (id & rest & Hcand' & _)%Hfilled. congruence.
  - intros before f after reached e Hfinalizers Hreached Hfail.
    rewrite Hfrom. unfold finalizeMonitor.
    rewrite Hfinalizers, runFinalizers_app, Hreached. simpl. by rewrite Hfail.
Qed.

End Resolution.

(** * The properties at concrete inputs *)
Section Instances.
Import networkingv1 ingress monitor provider site24x7api site24x7 BuilderSpec Examples.

(** The merge of the annotation test "already present source ranges are not
    added again". *)
Lemma merge_appends_missing_and_is_idempotent_witness :
  mergeProviderSourceRanges ["1.2.3.4/32"] ["5.6.7.8/32"; "1.2.3.4/32"]
  = (["1.2.3.4/32"; "5.6.7.8/32"], true)
  ∧ mergeProviderSourceRanges ["1.2.3.4/32"; "5.6.7.8/32"] ["5.6.7.8/32"; "1.2.3.4/32"]
    = (["1.2.3.4/32"; "5.6.7.8/32"], false).
Proof.
  pose proof (merge_appends_missing_and_is_idempotent
                ["1.2.3.4/32"] ["5.6.7.8/32"; "1.2.3.4/32"]) as (Hmerged & _ & Hagain).
  split; [reflexivity|]. exact Hagain.
Defined.

Lemma Validate_three_checks_first_failure_wins_witness :
  Validate wildcardTLSNoRules = Err (ErrTLSHostWildcard "*.bar.baz")
  ∧ Validate bareIngress = Err ErrNoRules
  ∧ Validate (fooIngress ∅) = Ok ().
Proof.
  split; [|split].
  - destruct (Validate_three_checks_first_failure_wins wildcardTLSNoRules)
      as (Htls & _).
    apply Htls; reflexivity.
  - destruct (Validate_three_checks_first_failure_wins bareIngress)
      as (_ & Hnorules & _).
    apply Hnorules; [|reflexivity]. intros host Hhost. discriminate Hhost.
  - destruct (Validate_three_checks_first_failure_wins (fooIngress ∅))
      as (_ & _ & _ & Hpass & _).
    apply Hpass with "foo.bar.baz"; [|reflexivity..].
    intros host Hhost. discriminate Hhost.
Defined.

Lemma BuildMonitorURL_scheme_host_priority_and_path_override_witness :
  Validate (fooIngress forceHTTPSWithPath) = Ok ()
  ∧ BuildMonitorURL (fooIngress forceHTTPSWithPath) = Ok "https://foo.bar.baz/health".
Proof.
  split; [reflexivity|].
  destruct (BuildMonitorURL_scheme_host_priority_and_path_override
              (fooIngress forceHTTPSWithPath) eq_refl)
    as (scheme & host & Hchoice & ->).
  vm_compute in Hchoice. injection Hchoice as <- <-. reflexivity.
Defined.

Lemma EnsureMonitor_skips_invalid_and_decides_by_lookup_witness :
  EnsureMonitor testSvc bareIngress (unusedProvider, []) = (Ok (), (unusedProvider, []))
  ∧ GetProviderIPSourceRanges testSvc bareIngress (unusedProvider, [])
    = (Ok [], (unusedProvider, []))
  ∧ (∃ m, buildMonitorModel testSvc (fooIngress enabled) = Ok m
      ∧ EnsureMonitor testSvc (fooIngress enabled) (notFindingProvider, [])
        = (Ok (), (notFindingProvider, [CallGet "kube-system-foo"; CallCreate m]))
      ∧ EnsureMonitor testSvc (fooIngress enabled) (findingProvider, [])
        = (Ok (), (findingProvider,
                   [CallGet "kube-system-foo"; CallUpdate (models.withID m "123")]))
      ∧ EnsureMonitor testSvc (fooIngress enabled) (failingProvider, [])
        = (Err (ErrExternal "error"), (failingProvider, [CallGet "kube-system-foo"]))).
Proof.
  destruct (EnsureMonitor_skips_invalid_and_decides_by_lookup
              testSvc bareIngress unusedProvider []) as (Hskip & _).
  destruct (Hskip ErrNoRules eq_refl) as (Hensure & Hranges).
  split; [exact Hensure|]. split; [exact Hranges|].
  eexists. split; [reflexivity|]. split; [|split].
  - destruct (EnsureMonitor_skips_invalid_and_decides_by_lookup
                testSvc (fooIngress enabled) notFindingProvider []) as (_ & Hdecide).
    destruct (Hdecide eq_refl _ eq_refl _ _ _ eq_refl) as (Hcreate & _).
    exact (Hcreate eq_refl).
  - destruct (EnsureMonitor_skips_invalid_and_decides_by_lookup
                testSvc (fooIngress enabled) findingProvider []) as (_ & Hdecide).
    destruct (Hdecide eq_refl _ eq_refl _ _ _ eq_refl) as (_ & Hupdate & _).
    exact (Hupdate foundMonitor eq_refl eq_refl).
  - destruct (EnsureMonitor_skips_invalid_and_decides_by_lookup
                testSvc (fooIngress enabled) failingProvider []) as (_ & Hdecide).
    destruct (Hdecide eq_refl _ eq_refl _ _ _ eq_refl) as (_ & _ & Hfail).
    apply (Hfail (ErrExternal "error") eq_refl). discriminate.
Defined.

(** A validated ingress whose URL does not parse: the error of the parser
    is returned and the provider is not called, as in the service test
    "invalid ingress returns error". *)
Example unparsable_host_is_an_error_without_provider_call :
  Validate invalidHostIngress = Ok ()
  ∧ EnsureMonitor testSvc invalidHostIngress (unusedProvider, [])
    = (Err (ErrExternal "invalid character in host name"), (unusedProvider, []))
  ∧ GetProviderIPSourceRanges testSvc invalidHostIngress (unusedProvider, [])
    = (Err (ErrExternal "invalid character in host name"), (unusedProvider, [])).
Proof. repeat split. Qed.

Lemma EnsureMonitor_update_carries_found_id_witness :
  ∃ updated,
    (EnsureMonitor (testService false) (fooIngress enabled) (findingProvider, [])).2.2
    = [CallGet "kube-system-foo"; CallUpdate updated]
    ∧ updated.(models.ID) = "123".
Proof.
  destruct (EnsureMonitor_update_carries_found_id
              (testService false) (fooIngress enabled) findingProvider)
    as (Hfound & _).
  destruct (Hfound eq_refl _ foundMonitor findingProvider eq_refl eq_refl)
    as (updated & Hcalls & Hid & _).
  exists updated. split; [exact Hcalls|exact Hid].
Defined.

Lemma DeleteMonitor_by_name_noop_or_delete_witness :
  DeleteMonitor (testService true) bareIngress (unusedProvider, [])
  = (Ok (), (unusedProvider, []))
  ∧ (DeleteMonitor (testService false) bareIngress (notFindingProvider, [])).1 = Ok ()
  ∧ (DeleteMonitor (testService false) bareIngress (notFindingProvider, [])).2
    = (notFindingProvider, [CallDelete "kube-system-foo"])
  ∧ (DeleteMonitor (testService false) bareIngress (failingProvider, [])).1
    = Err (ErrExternal "error").
Proof.
  split; [|split; [|split]].
  - destruct (DeleteMonitor_by_name_noop_or_delete
                (testService true) bareIngress unusedProvider []) as (_ & _ & Hname).
    destruct (Hname "kube-system-foo" eq_refl) as (Hnoop & _).
    exact (Hnoop eq_refl).
  - destruct (DeleteMonitor_by_name_noop_or_delete
                (testService false) bareIngress notFindingProvider []) as (_ & _ & Hname).
    destruct (Hname "kube-system-foo" eq_refl) as (_ & Hdelete).
    destruct (Hdelete eq_refl _ _ eq_refl) as (_ & Hgone & _).
    apply Hgone. right. reflexivity.
  - destruct (DeleteMonitor_by_name_noop_or_delete
                (testService false) bareIngress notFindingProvider []) as (_ & _ & Hname).
    destruct (Hname "kube-system-foo" eq_refl) as (_ & Hdelete).
    destruct (Hdelete eq_refl _ _ eq_refl) as (Hlog & _).
    exact Hlog.
  - destruct (DeleteMonitor_by_name_noop_or_delete
                (testService false) bareIngress failingProvider []) as (_ & _ & Hname).
    destruct (Hname "kube-system-foo" eq_refl) as (_ & Hdelete).
    destruct (Hdelete eq_refl _ _ eq_refl) as (_ & _ & Hfail).
    apply (Hfail (ErrExternal "error") eq_refl). discriminate.
Defined.

Lemma AnnotateIngress_frame_witness :
  (AnnotateIngress testSvc (fooIngress whitelisted) (rangesProvider, [])).1.2 = Ok true
  ∧ (AnnotateIngress testSvc (fooIngress whitelisted) (rangesProvider, [])).1.1.(Annotations)
      !! nginxWhitelistSourceRangeAnnotation
    = Some "1.2.3.4/32,5.6.7.8/32"
  ∧ (AnnotateIngress testSvc (fooIngress whitelisted) (rangesProvider, [])).1.1.(Annotations)
      !! config.AnnotationEnabled
    = Some "true"
  ∧ AnnotateIngress testSvc (fooIngress enabled) (unusedProvider, [])
    = ((fooIngress enabled, Ok false), (unusedProvider, [])).
Proof.
  destruct (AnnotateIngress_frame testSvc (fooIngress whitelisted) (rangesProvider, []))
    as (_ & Hpatched & _).
  destruct (Hpatched eq_refl) as (_ & Hothers & _).
  split; [reflexivity|]. split; [reflexivity|]. split.
  - rewrite (Hothers config.AnnotationEnabled); [reflexivity|]. discriminate.
  - destruct (AnnotateIngress_frame testSvc (fooIngress enabled) (unusedProvider, []))
      as (_ & _ & _ & _ & Hempty & _).
    exact (Hempty eq_refl).
Defined.

(** The resolution of the provider test "it will not override explicitly
    set profile IDs with auto discovered IDs". *)
Lemma FromModel_override_precedence_witness :
  ∃ cfg,
    FromModel (autoLocationBuilder ["123"])
      (myMonitor {[ config.AnnotationSite24x7LocationProfileID := "456" ]}) = Ok cfg
    ∧ cfg.(LocationProfileID) = "456".
Proof.
  eexists. split; [vm_compute; reflexivity|].
  match goal with
  | |- LocationProfileID ?cfg = _ =>
      assert (Hresolved :
                FromModel (autoLocationBuilder ["123"])
                  (myMonitor {[ config.AnnotationSite24x7LocationProfileID := "456" ]})
                = Ok cfg) by (vm_compute; reflexivity)
  end.
  destruct (FromModel_override_precedence _ _ _ Hresolved)
    as (_ & _ & _ & _ & _ & _ & _ & _ & _ & _ & Hlocation & _).
  apply Hlocation; [vm_compute; reflexivity|discriminate].
Defined.

(** C7, the claim as stated fails: the location profile annotation is
    present with the empty value, auto-discovery of the location profile is
    enabled, and the provider lists the profile 123.  The resolved location
    profile is 123, the auto-discovered one, and not the value of the
    override. *)
Lemma override_present_but_empty_is_replaced_by_discovery :
  (emptyLocationOverride).(models.Annotations)
    !! config.AnnotationSite24x7LocationProfileID = Some ""
  ∧ ∃ cfg, FromModel (autoLocationBuilder ["123"]) emptyLocationOverride = Ok cfg
           ∧ cfg.(LocationProfileID) = "123"
           ∧ cfg.(LocationProfileID) ≠ "".
Proof.
  split; [reflexivity|]. eexists. split; [vm_compute; reflexivity|].
  split; [reflexivity|discriminate].
Qed.

(** A second input on which the override does not decide the value: the
    custom-headers annotation is present with the JSON value null, which
    decodes to the nil slice, and the field takes the default headers. *)
Example override_json_null_takes_default :
  ∃ cfg, FromModel headerBuilder
           (myMonitor {[ config.AnnotationSite24x7CustomHeaders := "null" ]}) = Ok cfg
         ∧ cfg.(CustomHeaders) = headerDefaults.(config.CustomHeaders).
Proof. eexists. split; [vm_compute; reflexivity|reflexivity]. Qed.

Lemma FromModel_malformed_json_fails_absent_takes_default_witness :
  FromModel (autoLocationBuilder ["123"]) invalidActions
  = Err (ErrInvalidAnnotationJSON config.AnnotationSite24x7Actions "{invalidjson"
           "invalid character")
  ∧ ∃ cfg, FromModel headerBuilder (myMonitor ∅) = Ok cfg
           ∧ cfg.(CustomHeaders) = headerDefaults.(config.CustomHeaders).
Proof.
  split.
  - destruct (FromModel_malformed_json_fails_absent_takes_default
                (autoLocationBuilder ["123"]) invalidActions) as (_ & Hactions & _).
    assert (Hraw : invalidActions.(models.Annotations) !! config.AnnotationSite24x7Actions
                   = Some "{invalidjson") by (vm_compute; reflexivity).
    assert (Hcause : json.UnmarshalActionRefs "{invalidjson" = inl "invalid character")
      by (vm_compute; reflexivity).
    destruct (Hactions _ _ Hraw Hcause) as [Herr|(raw & cause & Hheaders & _)];
      [exact Herr|].
    vm_compute in Hheaders. discriminate Hheaders.
  - eexists. split; [vm_compute; reflexivity|].
    match goal with
    | |- CustomHeaders ?cfg = _ =>
        assert (Hresolved : FromModel headerBuilder (myMonitor ∅) = Ok cfg)
          by (vm_compute; reflexivity)
    end.
    destruct (FromModel_malformed_json_fails_absent_takes_default
                headerBuilder (myMonitor ∅)) as (_ & _ & Hok).
    destruct (Hok _ Hresolved) as (Hheaders & _).
    apply Hheaders. vm_compute; reflexivity.
Defined.

(** The resolutions of the provider tests "auto discovers profile and group
    IDs from API if enabled" (for the location profile) and "it will error if
    auto discovery of profile returns no results". *)
Lemma finalizers_fill_gap_with_first_candidate_or_abort_witness :
  (∃ cfg, FromModel (autoLocationBuilder ["123"; "456"]) (myMonitor ∅) = Ok cfg
          ∧ cfg.(LocationProfileID) = "123")
  ∧ FromModel (autoLocationBuilder []) (myMonitor ∅)
    = Err (ErrNoProfilesConfigured LocationProfileKind).
Proof.
  split.
  - eexists. split; [vm_compute; reflexivity|].
    match goal with
    | |- LocationProfileID ?cfg = _ =>
        assert (Hresolved :
                  FromModel (autoLocationBuilder ["123"; "456"]) (myMonitor ∅) = Ok cfg)
          by (vm_compute; reflexivity)
    end.
    destruct (resolveFields (autoLocationBuilder ["123"; "456"]) (myMonitor ∅))
      as [direct|e|] eqn:Hdirect; [|vm_compute in Hdirect; discriminate Hdirect..].
    assert (Hunset : fieldUnset direct LocationProfileKind = true).
    { vm_compute in Hdirect. injection Hdirect as <-. reflexivity. }
    destruct (finalizers_fill_gap_with_first_candidate_or_abort
                (autoLocationBuilder ["123"; "456"]) (myMonitor ∅) direct
                LocationProfileKind Hdirect eq_refl Hunset) as (Hfilled & _).
    destruct (Hfilled _ Hresolved) as (id & rest & Hcandidates & Hholds).
    vm_compute in Hcandidates. injection Hcandidates as <- _. exact Hholds.
  - destruct (resolveFields (autoLocationBuilder []) (myMonitor ∅))
      as [direct|e|] eqn:Hdirect; [|vm_compute in Hdirect; discriminate Hdirect..].
    assert (Hunset : fieldUnset direct LocationProfileKind = true).
    { vm_compute in Hdirect. injection Hdirect as <-. reflexivity. }
    destruct (finalizers_fill_gap_with_first_candidate_or_abort
                (autoLocationBuilder []) (myMonitor ∅) direct
                LocationProfileKind Hdirect eq_refl Hunset) as (_ & Hreached & _).
    destruct (Hreached direct eq_refl) as (_ & _ & Hnone).
    destruct (Hnone eq_refl) as (_ & Herr). exact Herr.
Defined.

End Instances.

(** * Further properties *)

(** ** Splitting and joining the whitelist *)
Section SplitJoin.
Import ExtraSpec.

Lemma Split_not_nil (s : string) (sep : ascii) : Strings.Split s sep ≠ [].
Proof.
  destruct s as [|c s]; simpl; [done|].
  destruct (Ascii.eqb c sep); [done|]. by destruct (Strings.Split s sep).
Qed.

Lemma append_String (x : ascii) (a b : string) :
  String x a +:+ b = String x (a +:+ b).
Proof. reflexivity. Qed.

Lemma append_empty (b : string) : EmptyString +:+ b = b.
Proof. reflexivity. Qed.

Lemma Split_app (a b : string) (sep : ascii) :
  Strings.Split (a +:+ String sep b) sep = Strings.Split a sep ++ Strings.Split b sep.
Proof.
  induction a as [|c a IH]; rewrite ?append_String, ?append_empty; simpl.
  - by rewrite Ascii.eqb_refl.
  - destruct (Ascii.eqb c sep); rewrite IH; [reflexivity|].
    destruct (Strings.Split a sep) eqn:Hsplit; [|reflexivity].
    by apply Split_not_nil in Hsplit.
Qed.

Lemma Split_freeOf (s : string) (sep : ascii) :
  freeOf sep s → Strings.Split s sep = [s].
Proof.
  unfold freeOf. induction s as [|c s IH]; simpl; [done|].
  rewrite not_elem_of_cons. intros [Hne Hfree].
  destruct (Ascii.eqb_spec c sep) as [->|_]; [done|].
  by rewrite IH.
Qed.

(** No field of a split contains the separator. *)
Lemma Split_fields_free (s : string) (sep : ascii) :
  Forall (freeOf sep) (Strings.Split s sep).
Proof.
  induction s as [|c s IH]; simpl.
  - constructor; [|done]. unfold freeOf. simpl. apply not_elem_of_nil.
  - destruct (Ascii.eqb_spec c sep) as [->|Hne].
    + constructor; [|done]. unfold freeOf. simpl. apply not_elem_of_nil.
    + destruct (Strings.Split s sep) as [|field fields] eqn:Hsplit;
        [by apply Split_not_nil in Hsplit|].
      inversion IH as [|? ? Hfield Hfields]; subst.
      constructor; [|done]. unfold freeOf in *. simpl.
      rewrite not_elem_of_cons. split; [congruence|done].
Qed.

Lemma Join_cons (e : string) (rest : list string) (sep : string) :
  rest ≠ [] → Strings.Join (e :: rest) sep = e +:+ sep +:+ Strings.Join rest sep.
Proof. by destruct rest. Qed.

Lemma append_assoc (a b c : string) : (a +:+ b) +:+ c = a +:+ (b +:+ c).
Proof.
  induction a as [|x a IH]; rewrite ?append_String, ?append_empty; [done|].
  by rewrite IH.
Qed.

Lemma Join_app (l1 l2 : list string) (sep : ascii) :
  l1 ≠ [] → l2 ≠ [] →
  Strings.Join (l1 ++ l2) (String sep EmptyString)
  = Strings.Join l1 (String sep EmptyString)
    +:+ String sep (Strings.Join l2 (String sep EmptyString)).
Proof.
  intros Hl1 Hl2. induction l1 as [|e l1 IH]; [done|].
  destruct l1 as [|e' l1].
  - cbn [app]. rewrite Join_cons by done. reflexivity.
  - change ((e :: e' :: l1) ++ l2) with (e :: ((e' :: l1) ++ l2)).
    rewrite Join_cons by done. rewrite IH by done.
    rewrite (Join_cons e (e' :: l1)) by done.
    by rewrite !append_assoc.
Qed.

(** Joining the fields of a split gives the string back. *)
Lemma Join_Split (s : string) (sep : ascii) :
  Strings.Join (Strings.Split s sep) (String sep EmptyString) = s.
Proof.
  induction s as [|c s IH]; simpl; [done|].
  destruct (Ascii.eqb_spec c sep) as [->|Hne].
  - rewrite Join_cons by apply Split_not_nil. simpl. by rewrite IH.
  - destruct (Strings.Split s sep) as [|field fields] eqn:Hsplit.
    + by apply Split_not_nil in Hsplit.
    + destruct fields as [|field' fields]; simpl in *; by rewrite <- IH.
Qed.

(** Splitting the join of fields that are free of the separator gives the
    fields back. *)
Lemma Split_Join (l : list string) (sep : ascii) :
  l ≠ [] → Forall (freeOf sep) l →
  Strings.Split (Strings.Join l (String sep EmptyString)) sep = l.
Proof.
  intros Hl Hfree. induction Hfree as [|e l He Hfree IH]; [done|].
  destruct l as [|e' l]; simpl.
  - by apply Split_freeOf.
  - change (Strings.Split (e +:+ String sep (Strings.Join (e' :: l) (String sep "")))
              sep = e :: e' :: l).
    rewrite Split_app, Split_freeOf by done. by rewrite IH.
Qed.

End SplitJoin.

(** ** Validation and the URL builder, further *)
Section IngressFurther.
Import networkingv1 ingress IngressSpec ExtraSpec.
Context `{url.Library}.

Lemma Validate_Ok_iff (ing : Ingress) :
  Validate ing = Ok ()
  ↔ (∃ host, firstRuleHost ing = Some host ∧ containsWildcard host = false)
    ∧ (∀ host, configuredTLSHost ing = Some host → containsWildcard host = false).
Proof.
  rewrite Validate_rules. unfold ValidationRules, configuredTLSHost.
  destruct (firstRuleHost ing) as [ruleHost|] eqn:Hrule.
  2: { split; [|by intros [(? & ? & _) _]].
       destruct (firstTLSHost ing) as [tlsHost|]; [|done].
       by destruct (negb _ && _). }
  destruct (containsWildcard ruleHost) eqn:Hwild.
  { split; [|intros [(host & [= <-] & Hfree) _]; congruence].
    destruct (firstTLSHost ing) as [tlsHost|]; [|done].
    by destruct (negb _ && _). }
  destruct (firstTLSHost ing) as [tlsHost|]; simpl.
  2: { split; [|done]. intros _. split; [by eauto|done]. }
  case_bool_decide as Hempty; simpl.
  { split; [|done]. intros _. split; [by eauto|done]. }
  destruct (containsWildcard tlsHost) eqn:Htls; simpl.
  - split; [done|]. intros [_ Hfree]. specialize (Hfree _ eq_refl). congruence.
  - split; [|done]. intros _. split; [by eauto|]. by intros host [= <-].
Qed.

(** X1.  [Validate] accepts exactly the ingresses that have a rule whose
    first host has no wildcard and whose configured TLS host, if any, has no
    wildcard. *)
Theorem Validate_accepts_iff (ing : Ingress) :
  Validate ing = Ok ()
  ↔ (∃ host, firstRuleHost ing = Some host ∧ containsWildcard host = false)
    ∧ (∀ host, configuredTLSHost ing = Some host → containsWildcard host = false).
Proof. apply Validate_Ok_iff. Qed.

(** X2.  The host a validated ingress is monitored at has no wildcard, and
    the scheme is http or https. *)
Theorem validated_host_has_no_wildcard (ing : Ingress) :
  Validate ing = Ok () →
  ∃ scheme host,
    buildHostURL ing = Ok (scheme +:+ "://" +:+ host)
    ∧ (scheme = "http" ∨ scheme = "https")
    ∧ containsWildcard host = false.
Proof.
  intros Hvalid.
  destruct (buildHostURL_schemeAndHost ing Hvalid) as (scheme & host & Hchoice & Hurl).
  exists scheme, host. split; [done|].
  apply Validate_Ok_iff in Hvalid as [(ruleHost & Hrule & Hwild) Htls].
  revert Hchoice. unfold schemeAndHost.
  destruct (configuredTLSHost ing) as [tlsHost|].
  - intros [= <- <-]. split; [by right|]. by apply Htls.
  - rewrite Hrule. simpl. destruct (_ || _); intros [= <- <-]; split; auto.
Qed.

(** X3.  [buildHostURL] panics exactly on an ingress that has neither a
    configured TLS host nor a rule, and so does [BuildMonitorURL] when the
    URL parser does not panic. *)
Theorem BuildMonitorURL_panics_iff (ing : Ingress) :
  (∀ rawURL, url.Parse rawURL ≠ Panic) →
  (buildHostURL ing = Panic ↔ supportsTLS ing = false ∧ ing.(Spec).(Rules) = [])
  ∧ (BuildMonitorURL ing = Panic ↔ supportsTLS ing = false ∧ ing.(Spec).(Rules) = []).
Proof.
  intros Hparse.
  assert (Hhost : buildHostURL ing = Panic
                  ↔ supportsTLS ing = false ∧ ing.(Spec).(Rules) = []).
  { unfold buildHostURL. destruct (forceHTTPS ing).
    all: destruct ing as [name namespace annotations [tls rules]].
    all: unfold supportsTLS, tlsHost0, ruleHost0, index; simpl.
    all: destruct tls as [|[[|[|c tlsHost] hosts]] tls]; simpl;
      destruct rules as [|[ruleHost] rules]; simpl; intuition congruence. }
  split; [done|]. rewrite <- Hhost. unfold BuildMonitorURL.
  destruct (buildHostURL ing) as [host|e|]; simpl; [|done..].
  specialize (Hparse host). destruct (url.Parse host); simpl; intuition congruence.
Qed.

(** X4.  TLS entries without a usable first host (no host, or an empty
    first host) are ignored: validation and the choice of scheme and host
    are those of the ingress without TLS entries. *)
Theorem unusable_TLS_is_ignored (ing : Ingress) :
  supportsTLS ing = false →
  Validate ing = Validate (withoutTLS ing)
  ∧ buildHostURL ing = buildHostURL (withoutTLS ing)
  ∧ BuildMonitorURL ing = BuildMonitorURL (withoutTLS ing).
Proof.
  intros Htls.
  assert (Hhost : buildHostURL ing = buildHostURL (withoutTLS ing)).
  { unfold buildHostURL. by rewrite Htls. }
  split; [|split; [done|]].
  - unfold Validate. by rewrite Htls.
  - unfold BuildMonitorURL. by rewrite Hhost.
Qed.

End IngressFurther.

(** ** The merge, further *)
Section MergeFurther.
Import monitor.

(** X5.  The merged whitelist holds exactly the ranges of the whitelist and
    of the provider: no range is dropped and none is made up. *)
Theorem merge_membership (W P : list string) (range : string) :
  range ∈ (mergeProviderSourceRanges W P).1 ↔ range ∈ W ∨ range ∈ P.
Proof.
  rewrite merge_unfold, difference_filter. simpl.
  rewrite elem_of_app, list_elem_of_filter.
  destruct (decide (range ∈ W)); tauto.
Qed.

(** X6.  Merging keeps a whitelist free of repetitions when the provider's
    list has none. *)
Theorem merge_NoDup (W P : list string) :
  NoDup W → NoDup P → NoDup (mergeProviderSourceRanges W P).1.
Proof.
  intros HW HP. rewrite merge_unfold, difference_filter. simpl.
  apply NoDup_app. split; [done|]. split.
  - intros x Hx [Hout _]%list_elem_of_filter. by apply Hout.
  - by apply NoDup_filter.
Qed.

End MergeFurther.

(** ** The whitelist annotation, further *)
Section AnnotationFurther.
Import networkingv1 monitor provider ExtraSpec.
Context `{url.Library} {P : Type} `{provider.Interface P}.

(** What a run of [AnnotateIngress] that reports an update has done. *)
Lemma AnnotateIngress_updated (s : service) (ing : Ingress) (w : World) :
  (AnnotateIngress s ing w).1.2 = Ok true →
  ∃ ranges w1,
    GetProviderIPSourceRanges s ing w = (Ok ranges, w1)
    ∧ shouldPatchSourceRangeWhitelist ing = true
    ∧ filter (λ range, range ∉ whitelistEntries ing) ranges ≠ []
    ∧ AnnotateIngress s ing w =
        ((setAnnotation ing nginxWhitelistSourceRangeAnnotation
            (Strings.Join
               (whitelistEntries ing
                ++ filter (λ range, range ∉ whitelistEntries ing) ranges) ","),
          Ok true), w1).
Proof.
  unfold AnnotateIngress.
  destruct (shouldPatchSourceRangeWhitelist ing) eqn:Hpatch; simpl; [|done].
  unfold bind, ret.
  destruct (GetProviderIPSourceRanges s ing w) as [[ranges|e|] w1]; simpl; [|done..].
  case_bool_decide; simpl; [done|].
  rewrite merge_unfold, difference_filter. fold (whitelistEntries ing).
  destruct (filter _ ranges) as [|range missing] eqn:Hmissing; simpl; [done|].
  intros _. exists ranges, w1. by rewrite Hmissing.
Qed.

Lemma mapIndex_setAnnotation (ing : Ingress) (key value : string) :
  mapIndex (setAnnotation ing key value).(Annotations) key = value.
Proof. unfold mapIndex, setAnnotation. simpl. by rewrite lookup_insert_eq. Qed.

(** The entries after joining the old entries with ranges to append. *)
Lemma entries_after_append (ing : Ingress) (missing : list string) :
  missing ≠ [] →
  whitelistEntries
    (setAnnotation ing nginxWhitelistSourceRangeAnnotation
       (Strings.Join (whitelistEntries ing ++ missing) ","))
  = whitelistEntries ing ++ Strings.Split (Strings.Join missing ",") ",".
Proof.
  intros Hmissing. unfold whitelistEntries at 1. rewrite mapIndex_setAnnotation.
  rewrite (Join_app _ _ ",") by (done || apply Split_not_nil).
  rewrite Split_app. f_equal.
  apply Split_Join; [apply Split_not_nil|apply Split_fields_free].
Qed.

(** X7.  A run of [AnnotateIngress] that reports an update keeps every
    entry of the whitelist in its place: the entries before are a prefix of
    the entries after.  When no provider range contains a comma, the entries
    after are the entries before followed by the provider ranges that were
    missing, in the provider's order. *)
Theorem AnnotateIngress_keeps_entries_and_appends_missing
    (s : service) (ing : Ingress) (w : World) :
  (AnnotateIngress s ing w).1.2 = Ok true →
  ∃ ranges w1,
    GetProviderIPSourceRanges s ing w = (Ok ranges, w1)
    ∧ whitelistEntries ing `prefix_of` whitelistEntries (AnnotateIngress s ing w).1.1
    ∧ (Forall (freeOf ",") ranges →
       whitelistEntries (AnnotateIngress s ing w).1.1
       = whitelistEntries ing
         ++ filter (λ range, range ∉ whitelistEntries ing) ranges).
Proof.
  intros (ranges & w1 & Hranges & _ & Hmissing & ->)%AnnotateIngress_updated.
  exists ranges, w1. split; [done|]. simpl.
  rewrite entries_after_append by done. split.
  - by eexists.
  - intros Hfree. f_equal. apply Split_Join; [done|].
    rewrite Forall_forall in Hfree |- *.
    intros range [_ Hin]%list_elem_of_filter. by apply Hfree.
Qed.

(** [AnnotateIngress] reports no update when every provider range is among
    the entries. *)
Lemma AnnotateIngress_all_present
    (s : service) (ing : Ingress) (w w1 : World) (ranges : list string) :
  shouldPatchSourceRangeWhitelist ing = true →
  GetProviderIPSourceRanges s ing w = (Ok ranges, w1) →
  (∀ range, range ∈ ranges → range ∈ whitelistEntries ing) →
  AnnotateIngress s ing w = ((ing, Ok false), w1).
Proof.
  intros Hpatch Hranges Hall. unfold AnnotateIngress, bind, ret.
  rewrite Hpatch. simpl. rewrite Hranges. case_bool_decide; simpl; [done|].
  rewrite merge_unfold, difference_filter.
  rewrite filter_none by (intros range Hin Hout; apply Hout; by apply Hall).
  done.
Qed.

Lemma shouldPatch_after_append (ing : Ingress) (missing : list string) :
  shouldPatchSourceRangeWhitelist ing = true →
  missing ≠ [] →
  shouldPatchSourceRangeWhitelist
    (setAnnotation ing nginxWhitelistSourceRangeAnnotation
       (Strings.Join (whitelistEntries ing ++ missing) ",")) = true.
Proof.
  intros Hpatch Hmissing. revert Hpatch.
  unfold shouldPatchSourceRangeWhitelist. rewrite mapIndex_setAnnotation.
  assert (Henabled :
    config.BoolValue
      (setAnnotation ing nginxWhitelistSourceRangeAnnotation
         (Strings.Join (whitelistEntries ing ++ missing) ",")).(Annotations)
      config.AnnotationEnabled false
    = config.BoolValue ing.(Annotations) config.AnnotationEnabled false).
  { unfold config.BoolValue, setAnnotation. simpl.
    by rewrite lookup_insert_ne. }
  rewrite Henabled. destruct (negb _); [done|]. intros _.
  rewrite (Join_app _ _ ",") by (done || apply Split_not_nil).
  by destruct (Strings.Join (whitelistEntries ing) ",").
Qed.

(** X8.  [AnnotateIngress] is idempotent: after a run that reports an
    update, a second run for which the provider returns the same ranges
    reports no update and leaves the ingress as the first run made it,
    provided no range contains a comma. *)
Theorem AnnotateIngress_second_run_reports_no_update
    (s : service) (ing : Ingress) (w w1 w2 : World) (ranges : list string) :
  (AnnotateIngress s ing w).1.2 = Ok true →
  GetProviderIPSourceRanges s ing w = (Ok ranges, w1) →
  Forall (freeOf ",") ranges →
  GetProviderIPSourceRanges s (AnnotateIngress s ing w).1.1 w1 = (Ok ranges, w2) →
  AnnotateIngress s (AnnotateIngress s ing w).1.1 w1
  = (((AnnotateIngress s ing w).1.1, Ok false), w2).
Proof.
  intros Hupdated Hranges Hfree.
  destruct (AnnotateIngress_updated s ing w Hupdated)
    as (ranges' & w1' & Hranges' & Hpatch & Hmissing & Hrun).
  rewrite Hranges in Hranges'. injection Hranges' as <- <-.
  rewrite Hrun. simpl. intros Hsecond.
  apply AnnotateIngress_all_present with ranges; [|done|].
  - by apply shouldPatch_after_append.
  - intros range Hin. rewrite entries_after_append by done.
    rewrite Split_Join; [|done|].
    + rewrite elem_of_app, list_elem_of_filter.
      destruct (decide (range ∈ whitelistEntries ing)); tauto.
    + rewrite Forall_forall in Hfree |- *.
      intros range' [_ Hin']%list_elem_of_filter. by apply Hfree.
Qed.

End AnnotationFurther.

(** ** The null provider *)
Section NullProvider.
Import networkingv1 monitor provider ExtraSpec.
Context `{url.Library}.

(** X9.  With the null provider, [AnnotateIngress] on an ingress that should
    be patched and whose monitor model is built adds the range of the local
    host to the whitelist exactly when it is not among the entries, and it
    adds nothing else. *)
Theorem null_provider_whitelists_localhost
    (s : service) (ing : Ingress) (log : list Call) (m : models.Monitor) :
  shouldPatchSourceRangeWhitelist ing = true →
  ingress.Validate ing = Ok () →
  buildMonitorModel s ing = Ok m →
  let run := AnnotateIngress s ing ((), log) in
  run.1.2 = Ok (bool_decide ("127.0.0.1/32" ∉ whitelistEntries ing))
  ∧ whitelistEntries run.1.1
    = (if decide ("127.0.0.1/32" ∈ whitelistEntries ing)
       then whitelistEntries ing
       else whitelistEntries ing ++ ["127.0.0.1/32"])
  ∧ run.2 = ((), log ++ [CallGetIPSourceRanges m]).
Proof.
  intros Hpatch Hvalid Hmodel.
  assert (Hranges : GetProviderIPSourceRanges s ing ((), log)
                    = (Ok ["127.0.0.1/32"], ((), log ++ [CallGetIPSourceRanges m]))).
  { unfold GetProviderIPSourceRanges. by rewrite Hvalid, Hmodel. }
  destruct (decide ("127.0.0.1/32" ∈ whitelistEntries ing)) as [Hin|Hout]; simpl.
  - rewrite (AnnotateIngress_all_present s ing _ _ _ Hpatch Hranges).
    + simpl. by rewrite bool_decide_eq_false_2 by (by intros Hn; apply Hn).
    + by intros range ->%list_elem_of_singleton.
  - unfold AnnotateIngress, bind, ret. rewrite Hpatch. simpl. rewrite Hranges.
    simpl. rewrite merge_unfold, difference_filter. fold (whitelistEntries ing).
    rewrite filter_cons, decide_True by done. simpl.
    rewrite bool_decide_eq_true_2 by done. split; [done|]. split; [|done].
    change (whitelistEntries
              (setAnnotation ing nginxWhitelistSourceRangeAnnotation
                 (Strings.Join (whitelistEntries ing ++ ["127.0.0.1/32"]) ","))
            = whitelistEntries ing ++ ["127.0.0.1/32"]).
    by rewrite entries_after_append.
Qed.

End NullProvider.

(** ** The monitor service, further *)
Section ServiceFurther.
Import networkingv1 monitor provider.
Context `{url.Library} {P : Type} `{provider.Interface P}.

(** The calls of a run of [EnsureMonitor]: the log grows by nothing, by the
    lookup, or by the lookup and one create or update of a monitor that has
    the name looked up. *)
Lemma EnsureMonitor_calls (s : service) (ing : Ingress) (p : P) (log : list Call) :
  ∃ calls,
    (EnsureMonitor s ing (p, log)).2.2 = log ++ calls
    ∧ (calls = []
       ∨ ∃ m, buildMonitorModel s ing = Ok m
           ∧ (calls = [CallGet m.(models.Name)]
              ∨ calls = [CallGet m.(models.Name); CallCreate m]
              ∨ ∃ id, calls = [CallGet m.(models.Name);
                               CallUpdate (models.withID m id)])).
Proof.
  unfold EnsureMonitor.
  destruct (ingress.Validate ing) as [[]|e|]; simpl;
    [|exists []; by rewrite app_nil_r; auto..].
  destruct (buildMonitorModel s ing) as [m|e|]; simpl;
    [|exists []; by rewrite app_nil_r; auto..].
  unfold bind, providerGet.
  destruct (Get m.(models.Name) p) as [[oldMonitor err] p1].
  destruct err as [e|].
  - destruct e; simpl; unfold createMonitor, bind, providerCreate, ret;
      try destruct (Create m p1) as [created p2]; simpl;
      try (exists [CallGet m.(models.Name)]; split; [done|]; right; exists m; by auto).
    exists [CallGet m.(models.Name); CallCreate m].
    rewrite <- app_assoc. split; [done|]. right. exists m. by auto.
  - destruct oldMonitor as [old|]; simpl.
    + unfold updateMonitor, bind, providerUpdate, ret.
      destruct (Update _ p1) as [res p2]; simpl.
      exists [CallGet m.(models.Name); CallUpdate (models.withID m old.(models.ID))].
      rewrite <- app_assoc. split; [done|]. right. exists m. split; [done|]. eauto.
    + exists [CallGet m.(models.Name)]. split; [done|]. right. exists m. by auto.
Qed.

(** X10.  [EnsureMonitor] never deletes and never asks for source ranges,
    it always looks up before it writes, and it writes at most once: its
    calls are none, the lookup alone, or the lookup followed by one create
    or one update of a monitor with the name that was looked up. *)
Theorem EnsureMonitor_call_discipline
    (s : service) (ing : Ingress) (p : P) (log : list Call) :
  ∃ calls,
    (EnsureMonitor s ing (p, log)).2.2 = log ++ calls
    ∧ (calls = []
       ∨ ∃ name, calls = [CallGet name]
           ∨ ∃ m, m.(models.Name) = name
               ∧ (calls = [CallGet name; CallCreate m]
                  ∨ calls = [CallGet name; CallUpdate m])).
Proof.
  destruct (EnsureMonitor_calls s ing p log) as (calls & Hlog & Hcalls).
  exists calls. split; [done|].
  destruct Hcalls as [->|(m & _ & [->|[->|(id & ->)]])]; [by left|right..].
  - exists m.(models.Name). by left.
  - exists m.(models.Name). right. exists m. by auto.
  - exists m.(models.Name). right. exists (models.withID m id). by auto.
Qed.


(** X12.  [GetProviderIPSourceRanges] and [AnnotateIngress] make at most one
    provider call, the request for the source ranges of the monitor model of
    the ingress: they never look up, create, update or delete a monitor. *)
Theorem AnnotateIngress_only_asks_for_source_ranges
    (s : service) (ing : Ingress) (p : P) (log : list Call) :
  let asks calls :=
    calls = log
    ∨ ∃ m, buildMonitorModel s ing = Ok m
        ∧ calls = log ++ [CallGetIPSourceRanges m] in
  asks (GetProviderIPSourceRanges s ing (p, log)).2.2
  ∧ asks (AnnotateIngress s ing (p, log)).2.2
  ∧ ((AnnotateIngress s ing (p, log)).2 = (p, log)
     ∨ (AnnotateIngress s ing (p, log)).2 = (GetProviderIPSourceRanges s ing (p, log)).2).
Proof.
  simpl.
  assert (Hget : (GetProviderIPSourceRanges s ing (p, log)).2.2 = log
                 ∨ ∃ m, buildMonitorModel s ing = Ok m
                     ∧ (GetProviderIPSourceRanges s ing (p, log)).2.2
                       = log ++ [CallGetIPSourceRanges m]).
  { unfold GetProviderIPSourceRanges.
    destruct (ingress.Validate ing) as [[]|e|]; simpl; [|by left..].
    destruct (buildMonitorModel s ing) as [m|e|]; simpl; [|by left..].
    right. exists m. split; [done|]. unfold bind, providerGetIPSourceRanges.
    destruct (GetIPSourceRanges m p) as [[ranges [e|]] p1]; done. }
  split; [done|].
  assert (Hrun : (AnnotateIngress s ing (p, log)).2 = (p, log)
                 ∨ (AnnotateIngress s ing (p, log)).2
                   = (GetProviderIPSourceRanges s ing (p, log)).2).
  { unfold AnnotateIngress.
    destruct (shouldPatchSourceRangeWhitelist ing); simpl; [|by left].
    right. unfold bind, ret.
    destruct (GetProviderIPSourceRanges s ing (p, log)) as [[ranges|e|] w1];
      simpl; [|done..].
    case_bool_decide; simpl; [done|].
    by destruct (mergeProviderSourceRanges _ ranges) as [merged []]. }
  split; [|done]. destruct Hrun as [->| ->]; [by left|done].
Qed.

(** X13.  The monitor of an ingress is looked up, created, updated and
    deleted under one name, which depends on the namespace and name of the
    ingress only: the name [DeleteMonitor] deletes for an ingress is the name
    [EnsureMonitor] uses for every ingress with the same namespace and name,
    such as the ingress before it was deleted. *)
Theorem ensure_and_delete_use_one_name
    (s : service) (ing ing' : Ingress) (p p' : P) (deleted : string) :
  ing.(Namespace) = ing'.(Namespace) →
  ing.(Name) = ing'.(Name) →
  CallDelete deleted ∈ (DeleteMonitor s ing' (p', [])).2.2 →
  ∀ call, call ∈ (EnsureMonitor s ing (p, [])).2.2 →
    match call with
    | CallGet name => name = deleted
    | CallCreate m | CallUpdate m => m.(models.Name) = deleted
    | _ => False
    end.
Proof.
  intros Hnamespace Hname Hdeleted call Hcall.
  assert (Hrendered : Namer_Name s.(namer) ing = Ok deleted).
  { revert Hdeleted. unfold DeleteMonitor, Namer_Name.
    rewrite Hnamespace, Hname.
    destruct (s.(namer).(render) _ _) as [name|e|]; simpl;
      [|by intros ?%elem_of_nil..].
    destruct (config.NoDelete _); simpl; [by intros ?%elem_of_nil|].
    unfold deleteMonitor, bind, providerDelete, ret.
    destruct (Delete name p') as [[[]|] p1]; simpl;
      intros Hin%list_elem_of_singleton; by injection Hin as ->. }
  destruct (EnsureMonitor_calls s ing p []) as (calls & Hlog & Hcalls).
  rewrite Hlog in Hcall. simpl in Hcall.
  assert (Hmodel : ∀ m, buildMonitorModel s ing = Ok m → m.(models.Name) = deleted).
  { intros m. unfold buildMonitorModel. rewrite Hrendered. simpl.
    destruct (ingress.BuildMonitorURL ing); simpl; [|done..]. by intros [= <-]. }
  destruct Hcalls as [->|(m & Hm%Hmodel & [->|[->|(id & ->)]])].
  - by apply elem_of_nil in Hcall.
  - by apply list_elem_of_singleton in Hcall as ->.
  - apply elem_of_cons in Hcall as [->|Hcall]; [done|].
    by apply list_elem_of_singleton in Hcall as ->.
  - apply elem_of_cons in Hcall as [->|Hcall]; [done|].
    by apply list_elem_of_singleton in Hcall as ->.
Qed.

End ServiceFurther.

(** ** The reconciler *)
Section ReconcilerProperties.
Import networkingv1 monitor provider controller ExtraSpec.
Context `{url.Library} {P : Type} `{provider.Interface P} {K : Type} `{Client K}.

Lemma Until_positive (t now : Z) :
  (0 < Until t now ↔ now < t)
  ∧ (now < t → Until t now = Z.min maxDuration (t - now)).
Proof. unfold Until, minDuration, maxDuration. lia. Qed.

(** [handleCreateOrUpdate] in one step: the outcome of [AnnotateIngress]
    decides between the cluster update and [EnsureMonitor]. *)
Lemma handleCreateOrUpdate_unfold
    (r : IngressReconciler) (ing : Ingress) (k : K) (clog : list ClusterCall)
    (w : monitor.World) :
  handleCreateOrUpdate r ing ((k, clog), w) =
    let '((patched, annotated), w1) := AnnotateIngress r.(monitorService) ing w in
    match annotated with
    | Ok true =>
        let '(err, k1) := controller.Update patched k in
        (errorResult err, ((k1, clog ++ [ClusterUpdate patched]), w1))
    | Ok false =>
        let '(res, w2) := EnsureMonitor r.(monitorService) ing w1 in
        (res, ((k, clog), w2))
    | Err err => (Err err, ((k, clog), w1))
    | Panic => (Panic, ((k, clog), w1))
    end.
Proof.
  unfold handleCreateOrUpdate, reconcileAnnotations, controller.bind, service,
    clientUpdate, controller.ret.
  destruct (AnnotateIngress _ ing w) as [[patched [[]|e|]] w1]; simpl; try done.
  by destruct (controller.Update patched k) as [[e|] k1].
Qed.

(** X14.  For an ingress that is gone from the cluster, [Reconcile] deletes
    the monitor named after the namespace and name of the request, without
    validation and without a cluster update; in no-delete mode it calls the
    provider not at all.  An already absent monitor is no error. *)
Theorem Reconcile_of_deleted_ingress_deletes_by_request_name
    (r : IngressReconciler) (now : Z) (req : Request) (k k1 : K)
    (clog : list ClusterCall) (p : P) (log : list Call) (name : string) :
  Get req k = (NotFound, k1) →
  r.(monitorService).(namer).(render) req.(ReqNamespace) req.(ReqName) = Ok name →
  let run := Reconcile r now req ((k, clog), (p, log)) in
  run.1.1 = noRequeue
  ∧ run.2.1 = (k1, clog ++ [ClusterGet req])
  ∧ (r.(monitorService).(options).(config.NoDelete) = true →
     run.1.2 = Ok () ∧ run.2.2 = (p, log))
  ∧ (r.(monitorService).(options).(config.NoDelete) = false →
     run.2.2 = ((Delete name p).2, log ++ [CallDelete name])
     ∧ run.1.2 = match (Delete name p).1 with
                 | None | Some ErrMonitorNotFound => Ok ()
                 | Some err => Err err
                 end).
Proof.
  intros Hget Hname. unfold Reconcile, controller.bind, clientGet. rewrite Hget.
  unfold service, controller.ret, DeleteMonitor, Namer_Name. simpl. rewrite Hname.
  destruct (config.NoDelete _); simpl; [by repeat split|].
  unfold deleteMonitor, monitor.bind, providerDelete, monitor.ret. simpl.
  destruct (Delete name p) as [[[]|] p1]; by repeat split.
Qed.

(** X15.  [Reconcile] syncs a monitor only for an ingress whose enabled
    annotation is the string [true]: with any other value, also one that
    parses as the boolean true such as [1], and with no value, the monitor
    of the ingress is deleted, the whitelist is not patched and no monitor
    is created or updated. *)
Theorem Reconcile_requires_the_literal_true
    (r : IngressReconciler) (now : Z) (req : Request) (k k1 : K)
    (clog : list ClusterCall) (w : monitor.World) (ing : Ingress) (created : Z) :
  Get req k = (Found ing created, k1) →
  mapIndex ing.(Annotations) config.AnnotationEnabled ≠ "true" →
  Reconcile r now req ((k, clog), w)
  = ((noRequeue, (DeleteMonitor r.(monitorService) ing w).1),
     ((k1, clog ++ [ClusterGet req]), (DeleteMonitor r.(monitorService) ing w).2)).
Proof.
  intros Hget Hvalue. unfold Reconcile, controller.bind, clientGet. rewrite Hget.
  rewrite bool_decide_eq_false_2 by done.
  unfold service, controller.ret.
  by destruct (DeleteMonitor _ ing w).
Qed.

(** X16.  While the creation delay of an enabled ingress has not passed,
    [Reconcile] asks to be called again after the remaining time, which is
    positive and at most the largest duration, returns no error, and calls
    neither the provider nor the cluster again. *)
Theorem Reconcile_waits_for_the_creation_delay
    (r : IngressReconciler) (now : Z) (req : Request) (k k1 : K)
    (clog : list ClusterCall) (w : monitor.World) (ing : Ingress) (created : Z) :
  Get req k = (Found ing created, k1) →
  mapIndex ing.(Annotations) config.AnnotationEnabled = "true" →
  now < created + r.(creationDelay) →
  Reconcile r now req ((k, clog), w)
  = (({| RequeueAfter := Z.min maxDuration (created + r.(creationDelay) - now) |},
      Ok ()),
     ((k1, clog ++ [ClusterGet req]), w))
  ∧ 0 < Z.min maxDuration (created + r.(creationDelay) - now) ≤ maxDuration.
Proof.
  intros Hget Henabled Hlate.
  destruct (Until_positive (created + r.(creationDelay)) now) as [Hpos Hvalue].
  split; [|unfold maxDuration; lia].
  unfold Reconcile, controller.bind, clientGet. rewrite Hget.
  rewrite bool_decide_eq_true_2 by done.
  rewrite bool_decide_eq_true_2 by (by apply Hpos).
  by rewrite Hvalue.
Qed.

(** X17.  In every reconciliation the cluster is read once, first, and
    written at most once; it is written only with the ingress that was read,
    changed at the whitelist annotation and nowhere else; and in a
    reconciliation that writes the ingress, the provider is only asked for
    its source ranges: no monitor is looked up, created, updated or
    deleted until the next reconciliation. *)
Theorem Reconcile_patches_the_ingress_or_syncs_the_monitor
    (r : IngressReconciler) (now : Z) (req : Request) (k : K)
    (clog : list ClusterCall) (p : P) (log : list Call) :
  let run := Reconcile r now req ((k, clog), (p, log)) in
  run.2.1.2 = clog ++ [ClusterGet req]
  ∨ ∃ ing created value m,
      (Get req k).1 = Found ing created
      ∧ run.2.1.2 = clog ++ [ClusterGet req;
                             ClusterUpdate
                               (setAnnotation ing nginxWhitelistSourceRangeAnnotation
                                  value)]
      ∧ buildMonitorModel r.(monitorService) ing = Ok m
      ∧ run.2.2.2 = log ++ [CallGetIPSourceRanges m]
      ∧ run.1.1 = noRequeue.
Proof.
  simpl. unfold Reconcile, controller.bind, clientGet.
  destruct (Get req k) as [[ing created| |e] k1] eqn:Hget; simpl.
  2: { left. unfold service, controller.ret.
       by destruct (DeleteMonitor _ _ _). }
  2: { by left. }
  case_bool_decide; simpl.
  2: { left. unfold service, controller.ret. by destruct (DeleteMonitor _ _ _). }
  case_bool_decide; simpl; [by left|].
  rewrite handleCreateOrUpdate_unfold.
  pose proof (AnnotateIngress_updated r.(monitorService) ing (p, log)) as Hupdated.
  destruct (AnnotateIngress _ ing (p, log)) as [[patched annotated] w1] eqn:Hrun.
  destruct annotated as [[]|e|]; simpl.
  - destruct (Hupdated eq_refl) as (ranges & w1' & Hranges & _ & Hmissing & [= -> <-]).
    destruct (controller.Update _ k1) as [err k2]; simpl. right.
    revert Hranges. unfold GetProviderIPSourceRanges.
    destruct (ingress.Validate ing) as [[]|?|]; simpl.
    2: { unfold monitor.ret. intros [= <- <-]. by rewrite filter_nil in Hmissing. }
    2: { done. }
    destruct (buildMonitorModel _ ing) as [m|?|] eqn:Hmodel; simpl; [|done..].
    unfold monitor.bind, providerGetIPSourceRanges.
    destruct (GetIPSourceRanges m p) as [[ranges' [e|]] p1]; simpl; [done|].
    unfold monitor.ret. intros [= <- <-].
    eexists ing, created, _, m. rewrite <- app_assoc. by repeat split.
  - left. by destruct (EnsureMonitor _ ing w1).
  - by left.
  - by left.
Qed.

End ReconcilerProperties.

(** ** The Site24x7 provider *)
Section Site24x7ProviderProperties.
Import site24x7api site24x7 site24x7Provider.
Context `{json.Library} `{pkgerrors.Library} {C T : Type} `{API C} `{Cache T}.
Local Abbreviation Prov := (@Provider C T _).


Lemma findByName_None (monitors : list Monitor) (name : string) :
  findByName monitors name = None
  ↔ ∀ monitor, monitor ∈ monitors → monitor.(DisplayName) ≠ name.
Proof.
  induction monitors as [|monitor rest IH]; simpl.
  - split; [by intros _ ? ?%elem_of_nil|done].
  - case_bool_decide as Hname.
    + rewrite IH. split.
      * intros Hrest other [->|Hin]%elem_of_cons; [done|by apply Hrest].
      * intros Hall other Hin. apply Hall. by right.
    + split; [done|]. intros Hall. exfalso. apply (Hall monitor); [by left|done].
Qed.

Lemma findByName_first (before after : list Monitor) (listed : Monitor) (name : string) :
  (∀ other, other ∈ before → other.(DisplayName) ≠ name) →
  listed.(DisplayName) = name →
  findByName (before ++ listed :: after) name
  = Some {| models.ID := listed.(MonitorID); models.Name := name;
            models.URL := listed.(Website); models.Annotations := ∅ |}.
Proof.
  intros Hbefore Hlisted. induction before as [|other before IH]; simpl.
  - rewrite bool_decide_eq_false_2 by (by intros Hne). by rewrite Hlisted.
  - rewrite bool_decide_eq_true_2 by (apply Hbefore; by left).
    apply IH. intros other' Hin. apply Hbefore. by right.
Qed.

Lemma Get_unfold (name : string) (p : Prov) :
  Get name p =
    (match (Monitors_List p.(client)).1.2 with
     | Some err => Err (pkgerrors.Wrapf err "failed to list site24x7 monitors")
     | None =>
         match findByName (Monitors_List p.(client)).1.1 name with
         | Some m => Ok m
         | None => Err ErrMonitorNotFound
         end
     end,
     {| client := (Monitors_List p.(client)).2;
        calls := p.(calls) ++ [CallMonitorsList];
        ipProvider := p.(ipProvider); builder := p.(builder);
        sourceRangeCache := p.(sourceRangeCache) |}).
Proof.
  unfold Get, site24x7Provider.bind, api, site24x7Provider.ret.
  destruct (Monitors_List p.(client)) as [[monitors [e|]] c1]; simpl; [done|].
  by destruct (findByName monitors name).
Qed.


(** X19.  [Delete] lists the monitors and deletes by the identifier of the
    first monitor with the name.  When no monitor has the name it makes no
    delete call and returns [ErrMonitorNotFound] itself, not wrapped. *)
Theorem site24x7_Delete_by_identifier_of_first_match
    (name : string) (p : Prov) (monitors : list Monitor) (c1 : C) :
  Monitors_List p.(client) = ((monitors, None), c1) →
  let run := Delete name p in
  ((∀ monitor, monitor ∈ monitors → monitor.(DisplayName) ≠ name) →
     run.1 = Err ErrMonitorNotFound
     ∧ run.2.(calls) = p.(calls) ++ [CallMonitorsList]
     ∧ run.2.(client) = c1)
  ∧ (∀ before listed after,
       monitors = before ++ listed :: after →
       (∀ other, other ∈ before → other.(DisplayName) ≠ name) →
       listed.(DisplayName) = name →
       run.2.(calls)
       = p.(calls) ++ [CallMonitorsList; CallMonitorsDelete listed.(MonitorID)]
       ∧ run.2.(client) = (Monitors_Delete listed.(MonitorID) c1).2
       ∧ (run.1 = Ok () ↔ (Monitors_Delete listed.(MonitorID) c1).1 = None)).
Proof.
  intros Hlist. simpl. unfold Delete, site24x7Provider.bind.
  rewrite Get_unfold, Hlist. simpl. split.
  - intros Hnone%findByName_None. by rewrite Hnone.
  - intros before listed after -> Hbefore Hlisted.
    rewrite (findByName_first before after listed name Hbefore Hlisted).
    unfold api, site24x7Provider.ret. simpl.
    destruct (Monitors_Delete listed.(MonitorID) c1) as [[e|] c2]; simpl;
      rewrite <- app_assoc; by repeat split.
Qed.






End Site24x7ProviderProperties.

(** ** The monitor service over the Site24x7 provider *)
Section ServiceOverSite24x7.
Import networkingv1 site24x7api site24x7 site24x7Provider.
Context `{url.Library} `{json.Library} `{pkgerrors.Library}
  {C T : Type} `{API C} `{Cache T}.
Local Abbreviation Prov := (@Provider C T _).





(** X25.  Deleting the monitor of an ingress whose monitor is already gone
    succeeds: over the Site24x7 provider, when the listing has no monitor
    with the name of the ingress, [DeleteMonitor] returns no error, and the
    listing is the only call made to the client. *)
Theorem DeleteMonitor_site24x7_of_absent_monitor_succeeds
    (s : monitor.service) (ing : Ingress) (name : string)
    (p : Prov) (log : list provider.Call) (monitors : list Monitor) (c1 : C) :
  monitor.Namer_Name s.(monitor.namer) ing = Ok name →
  Monitors_List p.(client) = ((monitors, None), c1) →
  (∀ listed, listed ∈ monitors → listed.(DisplayName) ≠ name) →
  let run := monitor.DeleteMonitor s ing (p, log) in
  run.1 = Ok ()
  ∧ (s.(monitor.options).(config.NoDelete) = false →
     run.2.1.(calls) = p.(calls) ++ [CallMonitorsList])
  ∧ (s.(monitor.options).(config.NoDelete) = true → run.2.1 = p).
Proof.
  intros Hname Hlist Hnone%findByName_None. cbv zeta.
  unfold monitor.DeleteMonitor. rewrite Hname.
  destruct (config.NoDelete _); [done|].
  unfold monitor.deleteMonitor, monitor.bind, monitor.providerDelete. simpl.
  unfold Delete, site24x7Provider.bind. rewrite Get_unfold, Hlist. simpl.
  by rewrite Hnone.
Qed.

End ServiceOverSite24x7.

(** ** The further properties at the examples *)
Section FurtherInstances.
Import networkingv1 ingress monitor provider site24x7api site24x7.
Import ExtraSpec Examples MoreExamples.

Lemma validated_host_has_no_wildcard_witness :
  Validate (fooIngress ∅) = Ok ()
  ∧ ∃ scheme host,
      buildHostURL (fooIngress ∅) = Ok (scheme +:+ "://" +:+ host)
      ∧ (scheme = "http" ∨ scheme = "https")
      ∧ containsWildcard host = false.
Proof.
  assert (Hvalid : Validate (fooIngress ∅) = Ok ()) by reflexivity.
  split; [exact Hvalid|].
  exact (validated_host_has_no_wildcard (fooIngress ∅) Hvalid).
Defined.

(** The ingress without rules and without TLS makes the URL builder
    panic; the ingress of the tests does not. *)
Lemma BuildMonitorURL_panics_iff_witness :
  BuildMonitorURL bareIngress = Panic ∧ BuildMonitorURL (fooIngress ∅) ≠ Panic.
Proof.
  assert (Hparse : ∀ rawURL, url.Parse rawURL ≠ Panic).
  { intros rawURL. simpl. unfold simpleParse.
    destruct (dropPrefix "https://" rawURL) as [host|];
      [|destruct (dropPrefix "http://" rawURL) as [host|]];
      try destruct (validHost host); discriminate. }
  split.
  - apply (BuildMonitorURL_panics_iff bareIngress Hparse). split; reflexivity.
  - intros Hpanic.
    apply (BuildMonitorURL_panics_iff (fooIngress ∅) Hparse) in Hpanic as [_ Hrules].
    discriminate Hrules.
Defined.

Lemma unusable_TLS_is_ignored_witness :
  supportsTLS hostlessTLSIngress = false
  ∧ Validate hostlessTLSIngress = Validate (withoutTLS hostlessTLSIngress)
  ∧ buildHostURL hostlessTLSIngress = buildHostURL (withoutTLS hostlessTLSIngress)
  ∧ BuildMonitorURL hostlessTLSIngress = BuildMonitorURL (withoutTLS hostlessTLSIngress).
Proof.
  assert (Hnone : supportsTLS hostlessTLSIngress = false) by reflexivity.
  split; [exact Hnone|].
  exact (unusable_TLS_is_ignored hostlessTLSIngress Hnone).
Defined.

Lemma merge_NoDup_witness :
  NoDup (mergeProviderSourceRanges ["1.2.3.4/32"] ["5.6.7.8/32"; "1.2.3.4/32"]).1.
Proof.
  apply merge_NoDup; apply (bool_decide_unpack _); vm_compute; exact I.
Defined.

Lemma AnnotateIngress_keeps_entries_and_appends_missing_witness :
  (AnnotateIngress testSvc (fooIngress whitelisted) (rangesProvider, [])).1.2 = Ok true
  ∧ ∃ ranges w1,
      GetProviderIPSourceRanges testSvc (fooIngress whitelisted) (rangesProvider, [])
      = (Ok ranges, w1)
      ∧ whitelistEntries (fooIngress whitelisted)
        `prefix_of`
        whitelistEntries
          (AnnotateIngress testSvc (fooIngress whitelisted) (rangesProvider, [])).1.1
      ∧ (Forall (freeOf ",") ranges →
         whitelistEntries
           (AnnotateIngress testSvc (fooIngress whitelisted) (rangesProvider, [])).1.1
         = whitelistEntries (fooIngress whitelisted)
           ++ filter (λ range, range ∉ whitelistEntries (fooIngress whitelisted)) ranges).
Proof.
  assert (Hupdated :
    (AnnotateIngress testSvc (fooIngress whitelisted) (rangesProvider, [])).1.2 = Ok true)
    by (vm_compute; reflexivity).
  split; [exact Hupdated|].
  exact (AnnotateIngress_keeps_entries_and_appends_missing
           testSvc (fooIngress whitelisted) (rangesProvider, []) Hupdated).
Defined.

Lemma AnnotateIngress_second_run_reports_no_update_witness :
  (AnnotateIngress testSvc (fooIngress whitelisted) (rangesProvider, [])).1.2 = Ok true
  ∧ (AnnotateIngress testSvc
       (AnnotateIngress testSvc (fooIngress whitelisted) (rangesProvider, [])).1.1
       (GetProviderIPSourceRanges testSvc (fooIngress whitelisted) (rangesProvider, [])).2).1
    = ((AnnotateIngress testSvc (fooIngress whitelisted) (rangesProvider, [])).1.1,
       Ok false).
Proof.
  assert (Hupdated :
    (AnnotateIngress testSvc (fooIngress whitelisted) (rangesProvider, [])).1.2 = Ok true)
    by (vm_compute; reflexivity).
  assert (Hranges :
    GetProviderIPSourceRanges testSvc (fooIngress whitelisted) (rangesProvider, [])
    = (Ok ["5.6.7.8/32"; "1.2.3.4/32"],
       (GetProviderIPSourceRanges testSvc (fooIngress whitelisted)
          (rangesProvider, [])).2))
    by (vm_compute; reflexivity).
  assert (Hfree : Forall (freeOf ",") ["5.6.7.8/32"; "1.2.3.4/32"])
    by (apply (bool_decide_unpack _); vm_compute; exact I).
  assert (Hagain :
    GetProviderIPSourceRanges testSvc
      (AnnotateIngress testSvc (fooIngress whitelisted) (rangesProvider, [])).1.1
      (GetProviderIPSourceRanges testSvc (fooIngress whitelisted) (rangesProvider, [])).2
    = (Ok ["5.6.7.8/32"; "1.2.3.4/32"],
       (GetProviderIPSourceRanges testSvc
          (AnnotateIngress testSvc (fooIngress whitelisted) (rangesProvider, [])).1.1
          (GetProviderIPSourceRanges testSvc (fooIngress whitelisted)
             (rangesProvider, [])).2).2))
    by (vm_compute; reflexivity).
  split; [exact Hupdated|].
  exact (f_equal fst
           (AnnotateIngress_second_run_reports_no_update
              testSvc (fooIngress whitelisted) (rangesProvider, []) _ _ _
              Hupdated Hranges Hfree Hagain)).
Defined.

Lemma null_provider_whitelists_localhost_witness :
  (AnnotateIngress testSvc (fooIngress whitelisted) ((), [])).1.2 = Ok true
  ∧ whitelistEntries (AnnotateIngress testSvc (fooIngress whitelisted) ((), [])).1.1
    = ["1.2.3.4/32"; "127.0.0.1/32"].
Proof.
  assert (Hmodel :
    buildMonitorModel testSvc (fooIngress whitelisted)
    = Ok {| models.ID := ""; models.URL := "http://foo.bar.baz";
            models.Name := "kube-system-foo"; models.Annotations := whitelisted |})
    by (vm_compute; reflexivity).
  assert (Hpatch : shouldPatchSourceRangeWhitelist (fooIngress whitelisted) = true)
    by (vm_compute; reflexivity).
  assert (Hvalid : Validate (fooIngress whitelisted) = Ok ()) by reflexivity.
  destruct (null_provider_whitelists_localhost
              testSvc (fooIngress whitelisted) [] _ Hpatch Hvalid Hmodel)
    as (Hresult & Hentries & _).
  split; [rewrite Hresult|rewrite Hentries]; vm_compute; reflexivity.
Defined.

Lemma ensure_and_delete_use_one_name_witness :
  CallDelete "kube-system-foo"
    ∈ (DeleteMonitor testSvc bareIngress (findingProvider, [])).2.2
  ∧ ∀ call,
      call ∈ (EnsureMonitor testSvc (fooIngress enabled) (notFindingProvider, [])).2.2 →
      match call with
      | CallGet name => name = "kube-system-foo"
      | CallCreate m | CallUpdate m => m.(models.Name) = "kube-system-foo"
      | _ => False
      end.
Proof.
  assert (Hdeleted :
    CallDelete "kube-system-foo"
      ∈ (DeleteMonitor testSvc bareIngress (findingProvider, [])).2.2)
    by (vm_compute; constructor).
  split; [exact Hdeleted|].
  exact (ensure_and_delete_use_one_name
           testSvc (fooIngress enabled) bareIngress notFindingProvider findingProvider
           "kube-system-foo" eq_refl eq_refl Hdeleted).
Defined.

(** Reconciling a request for an ingress the cluster does not hold deletes
    the monitor named after the request. *)
Lemma Reconcile_of_deleted_ingress_deletes_by_request_name_witness :
  (controller.Reconcile delayingReconciler 0 fooRequest
     (((None : cluster), []), (notFindingProvider, []))).1
  = (controller.noRequeue, Ok ())
  ∧ (controller.Reconcile delayingReconciler 0 fooRequest
       (((None : cluster), []), (notFindingProvider, []))).2.2.2
    = [CallDelete "kube-system-foo"].
Proof.
  assert (Hget : controller.Get fooRequest (None : cluster) = (controller.NotFound, None))
    by reflexivity.
  assert (Hname :
    delayingReconciler.(controller.monitorService).(namer).(render)
      fooRequest.(controller.ReqNamespace) fooRequest.(controller.ReqName)
    = Ok "kube-system-foo")
    by reflexivity.
  destruct (Reconcile_of_deleted_ingress_deletes_by_request_name
              delayingReconciler 0 fooRequest _ _ []
              notFindingProvider [] "kube-system-foo" Hget Hname)
    as (Hrequeue & _ & _ & Hdelete).
  destruct (Hdelete eq_refl) as (Hworld & Hresult).
  split.
  - apply injective_projections; [exact Hrequeue|exact Hresult].
  - rewrite Hworld. reflexivity.
Defined.

(** An enabled annotation of [1] parses as true and is not the string the
    reconciler asks for: the monitor of the ingress is deleted. *)
Lemma Reconcile_requires_the_literal_true_witness :
  config.BoolValue enabledByOne config.AnnotationEnabled false = true
  ∧ (controller.Reconcile delayingReconciler 0 fooRequest
       (((Some (fooIngress enabledByOne, 0) : cluster), []), (notFindingProvider, []))).2.2.2
    = [CallDelete "kube-system-foo"].
Proof.
  split; [vm_compute; reflexivity|].
  assert (Hother : mapIndex (fooIngress enabledByOne).(Annotations) config.AnnotationEnabled
                   ≠ "true")
    by (apply (bool_decide_unpack _); vm_compute; exact I).
  assert (Hget :
    controller.Get fooRequest (Some (fooIngress enabledByOne, 0) : cluster)
    = (controller.Found (fooIngress enabledByOne) 0,
       Some (fooIngress enabledByOne, 0)))
    by (vm_compute; reflexivity).
  rewrite (Reconcile_requires_the_literal_true
             delayingReconciler 0 fooRequest _ _ [] (notFindingProvider, []) _ _
             Hget Hother).
  vm_compute. reflexivity.
Defined.

(** Twenty seconds after the creation of an ingress, with a creation delay
    of fifty seconds, the request is queued again after thirty seconds and
    the provider is not called. *)
Lemma Reconcile_waits_for_the_creation_delay_witness :
  controller.Reconcile delayingReconciler (120 * 1000000000) fooRequest
    (((Some (fooIngress enabled, 100 * 1000000000) : cluster), []), (unusedProvider, []))
  = (({| controller.RequeueAfter := 30 * 1000000000 |}, Ok ()),
     (((Some (fooIngress enabled, 100 * 1000000000) : cluster), [controller.ClusterGet fooRequest]),
      (unusedProvider, []))).
Proof.
  assert (Henabled : mapIndex (fooIngress enabled).(Annotations) config.AnnotationEnabled
                     = "true")
    by (vm_compute; reflexivity).
  assert (Hget :
    controller.Get fooRequest (Some (fooIngress enabled, 100 * 1000000000) : cluster)
    = (controller.Found (fooIngress enabled) (100 * 1000000000),
       Some (fooIngress enabled, 100 * 1000000000)))
    by (vm_compute; reflexivity).
  assert (Hearly : 120 * 1000000000
                   < 100 * 1000000000 + delayingReconciler.(controller.creationDelay))
    by reflexivity.
  destruct (Reconcile_waits_for_the_creation_delay
              delayingReconciler (120 * 1000000000) fooRequest _ _ []
              (unusedProvider, []) _ _ Hget Henabled Hearly) as [Hrun _].
  etransitivity; [exact Hrun|reflexivity].
Defined.

(** Deleting by a name that two monitors of the account do not have makes
    no delete call; deleting [kube-system-foo] deletes the monitor [123]. *)
Lemma site24x7_Delete_by_identifier_of_first_match_witness :
  (site24x7Provider.Delete "kube-system-bar"
     (providerOver (accountWith [otherMonitor; fooMonitor]))).1
  = Err ErrMonitorNotFound
  ∧ (site24x7Provider.Delete "kube-system-foo"
       (providerOver (accountWith [otherMonitor; fooMonitor]))).2.(site24x7Provider.calls)
    = [site24x7Provider.CallMonitorsList; site24x7Provider.CallMonitorsDelete "123"].
Proof.
  assert (Hlist :
    site24x7Provider.Monitors_List
      (providerOver (accountWith [otherMonitor; fooMonitor])).(site24x7Provider.client)
    = (([otherMonitor; fooMonitor], None), accountWith [otherMonitor; fooMonitor]))
    by reflexivity.
  split.
  - destruct (site24x7_Delete_by_identifier_of_first_match
                "kube-system-bar" _ _ _ Hlist) as [Habsent _].
    apply Habsent. apply Forall_forall.
    apply (bool_decide_unpack _). vm_compute. exact I.
  - destruct (site24x7_Delete_by_identifier_of_first_match
                "kube-system-foo" _ _ _ Hlist) as [_ Hpresent].
    destruct (Hpresent [otherMonitor] fooMonitor []) as (Hcalls & _);
      [reflexivity| |reflexivity|exact Hcalls].
    apply Forall_forall. apply (bool_decide_unpack _). vm_compute. exact I.
Defined.





(** Deleting the monitor of an ingress when the account has no monitor of
    its name succeeds after the listing. *)
Lemma DeleteMonitor_site24x7_of_absent_monitor_succeeds_witness :
  (DeleteMonitor testSvc bareIngress (providerOver (accountWith [otherMonitor]), [])).1
  = Ok ()
  ∧ (DeleteMonitor testSvc bareIngress
       (providerOver (accountWith [otherMonitor]), [])).2.1.(site24x7Provider.calls)
    = [site24x7Provider.CallMonitorsList].
Proof.
  assert (Habsent : ∀ listed, listed ∈ [otherMonitor] →
                      listed.(DisplayName) ≠ "kube-system-foo")
    by (apply Forall_forall; apply (bool_decide_unpack _); vm_compute; exact I).
  destruct (DeleteMonitor_site24x7_of_absent_monitor_succeeds
              testSvc bareIngress "kube-system-foo"
              (providerOver (accountWith [otherMonitor])) []
              [otherMonitor] (accountWith [otherMonitor])
              eq_refl eq_refl Habsent) as (Hresult & Hcalls & _).
  split; [exact Hresult|exact (Hcalls eq_refl)].
Defined.

End FurtherInstances.
